(** * Precision Farming front end: a model of [app.js]

    The script binds a submit handler to the form [farmForm], turns the
    form's entries into a request payload, posts it to [/api/predict] and
    renders the answer into the page; [resetForm] clears the form.

    Conventions of the model.
    - A JavaScript string is a [string] (its UTF-8 bytes).
    - A JavaScript number is a binary64 [spec_float]; decimal text is
      converted with correct rounding (round to nearest, ties to even).
    - A plain object is the list of its own properties in creation order;
      they are enumerated (by [JSON.stringify], by [Object.keys]) with the
      array indices first, see [JSON.own_property_order].  An assignment
      to the name [__proto__] reaches the setter inherited from
      [Object.prototype] and creates no property, see [assign].
    - The page is the fixed set of elements the script looks up by id
      (the document is required to provide them), each with its inline
      [style.display] and its child nodes.
    - The form is the list of its controls in tree order, each with its
      value and its checkedness and with what a reset gives them.  The
      entries of the form data are strings: a file input, whose entry is a
      [File], is outside the model.
    - [await] is modelled by asking the environment for the outcome of the
      pending operation; handlers of other events that could run while the
      submit handler is suspended are outside the model.
    - Every observable effect is appended to a trace, in program order. *)

From Stdlib Require Import ZArith NArith List String Ascii Bool Lia.
From Stdlib Require Import SpecFloat DecimalString Permutation Sorted.
Import ListNotations.
Set Warnings "-register-all".
Open Scope string_scope.
Open Scope Z_scope.

(** ** Strings *)

Module Str.

Definition code (c : ascii) : N := N_of_ascii c.

Fixpoint zeros (n : nat) : string :=
  match n with O => "" | S n' => String "0" (zeros n') end.

Definition decimal (n : Z) : string := NilZero.string_of_uint (N.to_uint (Z.to_N n)).

Fixpoint take (n : nat) (s : string) : string :=
  match n, s with
  | S n', String c t => String c (take n' t)
  | _, _ => ""
  end.

Fixpoint drop (n : nat) (s : string) : string :=
  match n, s with
  | S n', String _ t => drop n' t
  | _, _ => s
  end.

End Str.

(** ** Numbers *)

Module Number.

Definition number := spec_float.
Definition prec : Z := 53.
Definition emax : Z := 1024.
Definition NaN : number := S754_nan.

Definition isNaN (x : number) : bool :=
  match x with S754_nan => true | _ => false end.

Definition isFinite (x : number) : bool :=
  match x with S754_zero _ | S754_finite _ _ _ => true | _ => false end.

(** The number that the decimal [d * 10^k], negated when [neg], denotes:
    the binary64 value nearest to it, ties to even (an infinity beyond the
    largest finite number, a signed zero for a zero mantissa). *)
Definition of_decimal (neg : bool) (d : N) (k : Z) : number :=
  match d with
  | N0 => S754_zero neg
  | Npos p =>
      match k with
      | Zneg q => SFdiv prec emax (S754_finite neg p 0) (S754_finite false (Pos.pow 10 q) 0)
      | _ => binary_round prec emax neg (p * Z.to_pos (10 ^ k)) 0
      end
  end.

(** White space: the ASCII characters, and the UTF-8 encodings of U+00A0,
    U+1680, U+2000..U+200A, U+2028, U+2029, U+202F, U+205F, U+3000, U+FEFF. *)
Definition is_ascii_space (c : ascii) : bool :=
  let n := Str.code c in
  ((9 <=? n) && (n <=? 13) || (n =? 32))%N.

Fixpoint trim_start (s : string) : string :=
  match s with
  | String c t =>
      if is_ascii_space c then trim_start t
      else match t with
           | String c2 t2 =>
               if ((Str.code c =? 194) && (Str.code c2 =? 160))%N then trim_start t2
               else match t2 with
                    | String c3 t3 =>
                        let a := Str.code c in
                        let b := Str.code c2 in
                        let d := Str.code c3 in
                        if (((a =? 225) && (b =? 154) && (d =? 128))
                            || ((a =? 226) && (b =? 128)
                                && (((128 <=? d) && (d <=? 138)) || (d =? 168) || (d =? 169) || (d =? 175)))
                            || ((a =? 226) && (b =? 129) && (d =? 159))
                            || ((a =? 227) && (b =? 128) && (d =? 128))
                            || ((a =? 239) && (b =? 187) && (d =? 191)))%N
                        then trim_start t3 else s
                    | _ => s
                    end
           | _ => s
           end
  | EmptyString => s
  end.

Definition digit_of (c : ascii) : option N :=
  let n := Str.code c in
  if ((48 <=? n) && (n <=? 57))%N then Some (n - 48)%N else None.

Fixpoint span_digits (s : string) : list N * string :=
  match s with
  | String c t =>
      match digit_of c with
      | Some d => let (ds, r) := span_digits t in (d :: ds, r)
      | None => ([], s)
      end
  | EmptyString => ([], s)
  end.

Definition digits_value (ds : list N) : N :=
  fold_left (fun acc d => (10 * acc + d)%N) ds 0%N.

Definition read_sign (s : string) : bool * string :=
  match s with
  | String c t =>
      if Ascii.eqb c "-" then (true, t)
      else if Ascii.eqb c "+" then (false, t)
      else (false, s)
  | EmptyString => (false, s)
  end.

(** The rest of [s] after a leading decimal point, if it has one. *)
Definition after_point (s : string) : option string :=
  match s with
  | String c t => if Ascii.eqb c "." then Some t else None
  | EmptyString => None
  end.

Definition read_exponent (s : string) : Z :=
  match s with
  | String c t =>
      if (Ascii.eqb c "e" || Ascii.eqb c "E")%bool then
        let (neg, t1) := read_sign t in
        match span_digits t1 with
        | ([], _) => 0
        | (ds, _) => let v := Z.of_N (digits_value ds) in if neg then - v else v
        end
      else 0
  | EmptyString => 0
  end.

(** [parseFloat]: leading white space is skipped, the longest prefix that
    is a decimal literal is converted, and anything after it is ignored;
    without such a prefix the result is [NaN]. *)
Definition parseFloat (input : string) : number :=
  let (neg, s1) := read_sign (trim_start input) in
  if String.prefix "Infinity" s1 then S754_infinity neg
  else
    let (ip, s2) := span_digits s1 in
    let (fp, s3) := match after_point s2 with
                    | Some t => span_digits t
                    | None => ([], s2)
                    end in
    match (ip ++ fp)%list with
    | [] => NaN
    | _ => of_decimal neg (digits_value (ip ++ fp)%list)
                      (read_exponent s3 - Z.of_nat (List.length fp))
    end.

(** [|x| = num / den] for a finite [x] with mantissa [m] and exponent [e]. *)
Definition ratio (m : positive) (e : Z) : Z * Z :=
  match e with
  | Zneg p => (Zpos m, 2 ^ Zpos p)
  | _ => (Zpos m * 2 ^ e, 1)
  end.

Fixpoint scale_up (fuel : nat) (num den j : Z) : Z :=
  match fuel with
  | O => j
  | S f => if den <=? 10 * num then j else scale_up f (10 * num) den (j + 1)
  end.

(** The [n] with [10^(n-1) <= num/den < 10^n]. *)
Definition magnitude10 (num den : Z) : Z :=
  if den <=? num then Z.of_nat (String.length (Str.decimal (num / den)))
  else 1 - scale_up (S (Z.to_nat (Z.log2 den))) num den 1.

Definition scaled (num den k : Z) : Z * Z :=
  match k with
  | Zneg _ => (num * 10 ^ (- k), den)
  | _ => (num, den * 10 ^ k)
  end.

(** Equality of finite numbers. *)
Definition same_number (x y : number) : bool :=
  match x, y with
  | S754_finite s1 m1 e1, S754_finite s2 m2 e2 =>
      Bool.eqb s1 s2 && Pos.eqb m1 m2 && Z.eqb e1 e2
  | _, _ => false
  end.

(** The shortest decimal [c * 10^e10] that converts back to [x], trying
    [k], [k + 1], ... digits: of the two [k]-digit neighbours of
    [num / den] the one that converts back to [x], the nearer if both do.
    Seventeen digits always suffice. *)
Fixpoint shortest (fuel : nat) (x : number) (num den n k : Z) : Z * Z :=
  let e10 := n - k in
  let (tn, td) := scaled num den e10 in
  let lo := tn / td in
  let hi := lo + 1 in
  let lo_ok := same_number (of_decimal false (Z.to_N lo) e10) x in
  let hi_ok := same_number (of_decimal false (Z.to_N hi) e10) x in
  let nearer := if 2 * (tn - lo * td) <? td then lo
                else if td <? 2 * (tn - lo * td) then hi
                else if Z.even lo then lo else hi in
  match fuel with
  | O => (nearer, e10)
  | S f =>
      if lo_ok && hi_ok then (nearer, e10)
      else if lo_ok then (lo, e10)
      else if hi_ok then (hi, e10)
      else shortest f x num den n (k + 1)
  end.

Fixpoint strip_zeros (fuel : nat) (c e10 : Z) : Z * Z :=
  match fuel with
  | O => (c, e10)
  | S f => if (c mod 10 =? 0) && (0 <? c) then strip_zeros f (c / 10) (e10 + 1) else (c, e10)
  end.

(** [Number::toString] of the positive finite number [m * 2^e]: its
    shortest digits, written plainly when the decimal exponent [n] is
    between -5 and 21 and in exponent notation otherwise. *)
Definition toString_pos (m : positive) (e : Z) : string :=
  let (num, den) := ratio m e in
  let (c0, e0) := shortest 16 (S754_finite false m e) num den (magnitude10 num den) 1 in
  let (c, e10) := strip_zeros 20 c0 e0 in
  let ds := Str.decimal c in
  let k := Z.of_nat (String.length ds) in
  let n := e10 + k in
  if (k <=? n) && (n <=? 21) then ds ++ Str.zeros (Z.to_nat (n - k))
  else if (0 <? n) && (n <=? 21) then
    Str.take (Z.to_nat n) ds ++ "." ++ Str.drop (Z.to_nat n) ds
  else if (-6 <? n) && (n <=? 0) then "0." ++ Str.zeros (Z.to_nat (- n)) ++ ds
  else
    let ex := (if n - 1 <? 0 then "-" else "+") ++ Str.decimal (Z.abs (n - 1)) in
    if k =? 1 then ds ++ "e" ++ ex
    else Str.take 1 ds ++ "." ++ Str.drop 1 ds ++ "e" ++ ex.

Definition toString (x : number) : string :=
  match x with
  | S754_nan => "NaN"
  | S754_zero _ => "0"
  | S754_infinity s => if s then "-Infinity" else "Infinity"
  | S754_finite s m e => (if s then "-" else "") ++ toString_pos m e
  end.

(** [x.toFixed(f)] for [f] between 0 and 100 (the script passes 2 and 0):
    the integer nearest to [x * 10^f], the larger of two, written with [f]
    digits after the point; a number of magnitude 10^21 or more, an
    infinity and NaN are written as [toString] writes them. *)
Definition toFixed (x : number) (f : nat) : string :=
  match x with
  | S754_finite s m e =>
      let (num, den) := ratio m e in
      (if s then "-" else "") ++
      (if 10 ^ 21 * den <=? num then toString_pos m e
       else
         let n := (2 * num * 10 ^ Z.of_nat f + den) / (2 * den) in
         let ds := Str.decimal n in
         match f with
         | O => ds
         | _ =>
             let k := String.length ds in
             let padded := if (k <=? f)%nat then Str.zeros (f + 1 - k) ++ ds else ds in
             let cut := (String.length padded - f)%nat in
             Str.take cut padded ++ "." ++ Str.drop cut padded
         end)
  | S754_zero _ =>
      match f with O => "0" | _ => "0." ++ Str.zeros f end
  | _ => toString x
  end.

End Number.

(** ** JavaScript values *)

Inductive jsval :=
| VUndefined
| VNull
| VBool (b : bool)
| VNum (x : Number.number)
| VStr (s : string)
| VArr (items : list jsval)
| VObj (props : list (string * jsval)).

(** Own properties of a plain object, in creation order.  This is not the
    order in which they are enumerated: see [JSON.own_property_order]. *)
Definition object := list (string * jsval).

Fixpoint get_own {A} (o : list (string * A)) (key : string) : option A :=
  match o with
  | [] => None
  | (k, v) :: t => if String.eqb k key then Some v else get_own t key
  end.

(** Writing the own data property [key]: an existing property keeps its
    place, a new one is created after the others. *)
Fixpoint set_prop (o : object) (key : string) (v : jsval) : object :=
  match o with
  | [] => [(key, v)]
  | (k, x) :: t =>
      if String.eqb k key then (k, v) :: t else (k, x) :: set_prop t key v
  end.

(** [o[key] = v] for an object [o] made by the literal [{}], whose
    prototype is [Object.prototype], and a value [v] that is a number or a
    string.  [Object.prototype] holds one accessor, [__proto__]: the
    assignment to that name calls the inherited setter, which ignores a
    value that is neither an object nor [null], and no property is
    created.  Every other name is written as an own data property (the
    data properties of [Object.prototype] are writable, so a name such as
    [toString] or [constructor] is no exception). *)
Definition assign (o : object) (key : string) (v : jsval) : object :=
  if String.eqb key "__proto__" then o else set_prop o key v.

Definition ToBoolean (v : jsval) : bool :=
  match v with
  | VUndefined | VNull => false
  | VBool b => b
  | VNum (S754_zero _) | VNum S754_nan => false
  | VNum _ => true
  | VStr EmptyString => false
  | VStr _ => true
  | VArr _ | VObj _ => true
  end.

Fixpoint all_some {A} (l : list (option A)) : option (list A) :=
  match l with
  | [] => Some []
  | None :: _ => None
  | Some x :: t =>
      match all_some t with
      | Some r => Some (x :: r)
      | None => None
      end
  end.

(** [ToString], as string concatenation and DOM string attributes apply
    it.  [None] is the [TypeError] of an object that cannot be converted
    to a primitive: a parsed JSON object converts through the inherited
    [toString] unless an own property of that name hides it. *)
Fixpoint ToString (v : jsval) : option string :=
  match v with
  | VUndefined => Some "undefined"
  | VNull => Some "null"
  | VBool b => Some (if b then "true" else "false")
  | VNum x => Some (Number.toString x)
  | VStr s => Some s
  | VArr items =>
      option_map (String.concat ",")
        (all_some (map (fun i => match i with
                                 | VUndefined | VNull => Some ""
                                 | _ => ToString i
                                 end) items))
  | VObj props =>
      match get_own props "toString" with
      | Some _ => None
      | None => Some "[object Object]"
      end
  end.

(** Conversion to a nullable DOM string ([textContent]): [null] and
    [undefined] stand for the empty string. *)
Definition dom_string (v : jsval) : option string :=
  match v with
  | VUndefined | VNull => Some ""
  | _ => ToString v
  end.

(** ** JSON text *)

Module JSON.

Inductive json :=
| JNull
| JBool (b : bool)
| JNumber (x : Number.number)
| JString (s : string)
| JArray (items : list json)
| JObject (members : list (string * json)).

(** An array index is the canonical decimal numeral of an integer below
    2^32 - 1; such property names are enumerated first, in numeric order. *)
Definition array_index (k : string) : option N :=
  match Number.span_digits k with
  | (d :: ds, EmptyString) =>
      let n := Number.digits_value (d :: ds) in
      if String.eqb (Str.decimal (Z.of_N n)) k && (n <=? 4294967294)%N
      then Some n else None
  | _ => None
  end.

Fixpoint insert_by_index {A} (e : N * A) (l : list (N * A)) : list (N * A) :=
  match l with
  | [] => [e]
  | h :: t => if (fst e <? fst h)%N then e :: l else h :: insert_by_index e t
  end.

Definition index_entries {A} (ps : list (string * A)) : list (N * (string * A)) :=
  flat_map (fun p => match array_index (fst p) with
                     | Some n => [(n, p)]
                     | None => []
                     end) ps.

Definition named_entries {A} (ps : list (string * A)) : list (string * A) :=
  filter (fun p => match array_index (fst p) with
                   | Some _ => false
                   | None => true
                   end) ps.

Definition own_property_order {A} (ps : list (string * A)) : list (string * A) :=
  (map snd (fold_right insert_by_index [] (index_entries ps)) ++ named_entries ps)%list.

Definition defined_members {A B} (f : A -> option B)
  : list (string * A) -> list (string * B) :=
  fix members ps :=
    match ps with
    | [] => []
    | (k, x) :: t =>
        match f x with
        | Some j => (k, j) :: members t
        | None => members t
        end
    end.

(** The JSON document that serialisation writes for a value; [None] is
    [undefined] (the value has no JSON form).  A number that is not finite
    is written as [null]; a property whose value has no JSON form is
    left out of an object and written as [null] in an array. *)
Fixpoint to_json (v : jsval) : option json :=
  match v with
  | VUndefined => None
  | VNull => Some JNull
  | VBool b => Some (JBool b)
  | VNum x => Some (if Number.isFinite x then JNumber x else JNull)
  | VStr s => Some (JString s)
  | VArr items =>
      Some (JArray (map (fun i => match to_json i with
                                  | Some j => j
                                  | None => JNull
                                  end) items))
  | VObj props =>
      Some (JObject (own_property_order (defined_members to_json props)))
  end.

Definition hex_digit (n : N) : ascii :=
  match String.get (N.to_nat n) "0123456789abcdef" with
  | Some c => c
  | None => "0"%char
  end.

Definition quote_mark : ascii := "034"%char.
Definition backslash : ascii := "092"%char.

Fixpoint escape (s : string) : string :=
  match s with
  | EmptyString => ""
  | String c t =>
      let n := Str.code c in
      (if (n =? 34)%N then String backslash (String quote_mark "")
       else if (n =? 92)%N then String backslash (String backslash "")
       else if (n =? 8)%N then String backslash "b"
       else if (n =? 9)%N then String backslash "t"
       else if (n =? 10)%N then String backslash "n"
       else if (n =? 12)%N then String backslash "f"
       else if (n =? 13)%N then String backslash "r"
       else if (n <? 32)%N then
         String backslash ("u00" ++ String (hex_digit (n / 16)) (String (hex_digit (n mod 16)) ""))
       else String c "") ++ escape t
  end.

Definition quote (s : string) : string :=
  String quote_mark (escape s ++ String quote_mark "").

Fixpoint render (j : json) : string :=
  match j with
  | JNull => "null"
  | JBool b => if b then "true" else "false"
  | JNumber x => Number.toString x
  | JString s => quote s
  | JArray items => "[" ++ String.concat "," (map render items) ++ "]"
  | JObject members =>
      "{" ++ String.concat "," (map (fun m => quote (fst m) ++ ":" ++ render (snd m)) members) ++ "}"
  end.

Definition stringify (v : jsval) : option string := option_map render (to_json v).

End JSON.

(** ** The page *)

Inductive node :=
| TextNode (data : string)
| Element (tagName : string) (children : list node).

(** The [textContent] of a list of child nodes: the text of all
    descendants, in document order. *)
Fixpoint node_text (n : node) : string :=
  match n with
  | TextNode data => data
  | Element _ children => String.concat "" (map node_text children)
  end.

Definition textContent (children : list node) : string :=
  String.concat "" (map node_text children).

(** Assigning [textContent] replaces the children by one text node, or by
    nothing when the string is empty. *)
Definition text_children (s : string) : list node :=
  match s with
  | EmptyString => []
  | _ => [TextNode s]
  end.

(** The elements the script looks up by id, besides the form. *)
Inductive elem_id :=
| loadingIndicator | results
| waterResult | fertilizerResult | yieldResult
| waterRec | fertilizerRec
| tipsList.

Definition elem_id_eqb (a b : elem_id) : bool :=
  match a, b with
  | loadingIndicator, loadingIndicator | results, results
  | waterResult, waterResult | fertilizerResult, fertilizerResult
  | yieldResult, yieldResult | waterRec, waterRec
  | fertilizerRec, fertilizerRec | tipsList, tipsList => true
  | _, _ => false
  end.

Record element := { style_display : string; childNodes : list node }.

(** A control of the form, as [FormData] and [reset()] see it, in tree
    order: a text field, a hidden field, a text area (submitted with their
    value); a checkbox, a radio button, an option of a [select] under the
    name of its [select] (submitted with their value when they are checked
    or selected, and not at all otherwise).  [defaultValue] and
    [defaultChecked] are the value and the checkedness or selectedness
    that a reset gives the control; the markup fixes them, and the script
    does not change the markup.  Buttons are not listed ([FormData] built
    from the form alone has no submitter and leaves them out), nor are
    file inputs. *)
Record control := {
  name : string;
  checkable : bool;
  disabled : bool;
  defaultValue : string;
  value : string;
  defaultChecked : bool;
  checked : bool
}.

Record request := {
  url : string;
  method : string;
  headers : list (string * string);
  body : option string
}.

Inductive effect :=
| PreventDefault
| SetStyleDisplay (i : elem_id) (v : string)
| SetTextContent (i : elem_id) (s : string)
| ClearChildren (i : elem_id)
| AppendChild (i : elem_id) (n : node)
| ScrollIntoView (i : elem_id) (behavior : string)
| Fetch (r : request)
| Alert (msg : string)
| FormReset
| ConsoleLog (msg : string).

Record world := {
  document : elem_id -> element;
  farmForm : list control;
  defaultPrevented : bool;
  trace : list effect
}.

(** The text an element shows: the [textContent] of its children. *)
Definition shown (w : world) (i : elem_id) : string :=
  textContent (childNodes (document w i)).

Definition hidden (w : world) (i : elem_id) : Prop :=
  style_display (document w i) = "none".

Definition visible (w : world) (i : elem_id) : Prop :=
  style_display (document w i) = "block".

(** ** Errors and the environment *)

Record js_error := { error_name : string; message : string }.

Inductive type_error :=
| CannotReadProperty (prop : string)
| NotAFunction (prop : string)
| CannotConvertToPrimitive.

Inductive json_outcome :=
| JsonParsed (result : jsval)
| JsonRejected (error : js_error).

Record response := { json : json_outcome }.

Inductive fetch_outcome :=
| FetchResolved (r : response)
| FetchRejected (error : js_error).

(** What the script does not decide: how the network answers a request,
    and the wording of the engine's [TypeError] messages. *)
Record browser := {
  network : request -> fetch_outcome;
  engine_message : type_error -> string
}.

Definition TypeError (env : browser) (t : type_error) : js_error :=
  {| error_name := "TypeError"; message := engine_message env t |}.

(** ** Computations: state and exceptions *)

Inductive completion (A : Type) :=
| Normal (a : A)
| Throw (e : js_error).
Arguments Normal {A} a.
Arguments Throw {A} e.

Definition M (A : Type) : Type := world -> completion A * world.

Definition ret {A} (a : A) : M A := fun w => (Normal a, w).

Definition throw {A} (e : js_error) : M A := fun w => (Throw e, w).

Definition bind {A B} (m : M A) (k : A -> M B) : M B :=
  fun w =>
    match m w with
    | (Normal a, w') => k a w'
    | (Throw e, w') => (Throw e, w')
    end.

Declare Scope js_scope.
Delimit Scope js_scope with js.
Notation "x <- m ;; k" := (bind m (fun x => k))
  (at level 61, m at next level, right associativity) : js_scope.
Notation "m ;; k" := (bind m (fun _ => k))
  (at level 61, right associativity) : js_scope.

Definition try_catch {A} (block : M A) (handler : js_error -> M A) : M A :=
  fun w =>
    match block w with
    | (Normal a, w') => (Normal a, w')
    | (Throw e, w') => handler e w'
    end.

Definition try_finally {A} (block : M A) (finalizer : M unit) : M A :=
  fun w =>
    let (c, w') := block w in
    match finalizer w' with
    | (Normal _, w'') => (c, w'')
    | (Throw e, w'') => (Throw e, w'')
    end.

Definition of_option {A} (e : js_error) (o : option A) : M A :=
  match o with
  | Some a => ret a
  | None => throw e
  end.

Fixpoint forEach {A} (l : list A) (f : A -> M unit) : M unit :=
  match l with
  | [] => ret tt
  | x :: t => bind (f x) (fun _ => forEach t f)
  end.

(** ** Primitive effects *)

Definition log (e : effect) (w : world) : world :=
  {| document := document w; farmForm := farmForm w;
     defaultPrevented := defaultPrevented w; trace := (trace w ++ [e])%list |}.

Definition with_element (i : elem_id) (f : element -> element) (w : world) : world :=
  {| document := fun j => if elem_id_eqb i j then f (document w j) else document w j;
     farmForm := farmForm w;
     defaultPrevented := defaultPrevented w; trace := trace w |}.

Definition do_preventDefault (w : world) : world :=
  log PreventDefault
    {| document := document w; farmForm := farmForm w;
       defaultPrevented := true; trace := trace w |}.

Definition do_set_display (i : elem_id) (v : string) (w : world) : world :=
  log (SetStyleDisplay i v)
    (with_element i (fun el => {| style_display := v; childNodes := childNodes el |}) w).

Definition do_set_children (i : elem_id) (c : list node) (w : world) : world :=
  with_element i (fun el => {| style_display := style_display el; childNodes := c |}) w.

Definition do_set_textContent (i : elem_id) (s : string) (w : world) : world :=
  log (SetTextContent i s) (do_set_children i (text_children s) w).

Definition do_clear (i : elem_id) (w : world) : world :=
  log (ClearChildren i) (do_set_children i [] w).

Definition do_appendChild (i : elem_id) (n : node) (w : world) : world :=
  log (AppendChild i n) (do_set_children i (childNodes (document w i) ++ [n])%list w).

(** The reset algorithm of a control: the value and the checkedness (or
    selectedness) go back to their defaults, whatever the kind of the
    control; its name, its kind and its disabled state stay. *)
Definition reset_control (c : control) : control :=
  {| name := name c; checkable := checkable c; disabled := disabled c;
     defaultValue := defaultValue c; value := defaultValue c;
     defaultChecked := defaultChecked c; checked := defaultChecked c |}.

(** [form.reset()] resets every control of the form.  (The [reset] event
    that is fired first has no listener in this script, so nothing
    cancels it.) *)
Definition do_form_reset (w : world) : world :=
  log FormReset
    {| document := document w;
       farmForm := map reset_control (farmForm w);
       defaultPrevented := defaultPrevented w; trace := trace w |}.

Definition act (f : world -> world) : M unit := fun w => (Normal tt, f w).

Definition preventDefault : M unit := act do_preventDefault.
Definition set_style_display (i : elem_id) (v : string) : M unit := act (do_set_display i v).
Definition set_textContent (i : elem_id) (s : string) : M unit := act (do_set_textContent i s).
Definition set_innerHTML_empty (i : elem_id) : M unit := act (do_clear i).
Definition appendChild (i : elem_id) (n : node) : M unit := act (do_appendChild i n).
Definition scrollIntoView (i : elem_id) (behavior : string) : M unit :=
  act (log (ScrollIntoView i behavior)).
Definition alert (msg : string) : M unit := act (log (Alert msg)).
Definition console_log (msg : string) : M unit := act (log (ConsoleLog msg)).
Definition form_reset : M unit := act do_form_reset.

(** Whether a control contributes an entry to the form data: it is not
    disabled, it is checked (or selected) if it is a checkable one, and it
    has a name that is not empty. *)
Definition submitted (c : control) : bool :=
  negb (disabled c) && (negb (checkable c) || checked c)
  && negb (String.eqb (name c) "").

(** [new FormData(form).entries()]: the name and value of every control
    that contributes an entry, in tree order. *)
Definition FormData_entries (form : list control) : list (string * string) :=
  map (fun c => (name c, value c)) (filter submitted form).

Definition new_FormData : M (list (string * string)) :=
  fun w => (Normal (FormData_entries (farmForm w)), w).

(** [await fetch(url, init)]: the request is issued, and the handler
    resumes with the response or with the rejection thrown. *)
Definition fetch (env : browser) (r : request) : M response :=
  fun w =>
    match network env r with
    | FetchResolved resp => (Normal resp, log (Fetch r) w)
    | FetchRejected e => (Throw e, log (Fetch r) w)
    end.

(** [await response.json()]. *)
Definition response_json (r : response) : M jsval :=
  match json r with
  | JsonParsed v => ret v
  | JsonRejected e => throw e
  end.

(** [o.prop] on a plain object: a missing property reads as [undefined]. *)
Definition member_of (props : object) (prop : string) : jsval :=
  match get_own props prop with
  | Some x => x
  | None => VUndefined
  end.

(** [v.prop] for a value other than [null] and [undefined], for the member
    names this script reads: only a plain object can have them (no
    built-in prototype defines one of them). *)
Definition member (v : jsval) (prop : string) : jsval :=
  match v with
  | VObj props => member_of props prop
  | _ => VUndefined
  end.

(** Evaluating [v.prop]: reading a member of [null] or [undefined] throws. *)
Definition get_member (env : browser) (v : jsval) (prop : string) : M jsval :=
  match v with
  | VUndefined | VNull => throw (TypeError env (CannotReadProperty prop))
  | _ => ret (member v prop)
  end.

(** [v.toFixed(digits)]: only a number has the method. *)
Definition call_toFixed (env : browser) (v : jsval) (digits : nat) : M string :=
  match v with
  | VUndefined | VNull => throw (TypeError env (CannotReadProperty "toFixed"))
  | VNum x => ret (Number.toFixed x digits)
  | _ => throw (TypeError env (NotAFunction "toFixed"))
  end.

(** [v.forEach(f)]: only an array has the method. *)
Definition call_forEach (env : browser) (v : jsval) (f : jsval -> M unit) : M unit :=
  match v with
  | VUndefined | VNull => throw (TypeError env (CannotReadProperty "forEach"))
  | VArr items => forEach items f
  | _ => throw (TypeError env (NotAFunction "forEach"))
  end.

(** [prefix + v] with a string on the left. *)
Definition string_plus (env : browser) (prefix : string) (v : jsval) : M string :=
  bind (of_option (TypeError env CannotConvertToPrimitive) (ToString v))
       (fun s => ret (prefix ++ s)).

(** [element.textContent = v]. *)
Definition assign_textContent (env : browser) (i : elem_id) (v : jsval) : M unit :=
  bind (of_option (TypeError env CannotConvertToPrimitive) (dom_string v))
       (fun s => set_textContent i s).

(** ** The script *)

Open Scope js_scope.

(** The condition of the loop's [if]: the key is none of the five names. *)
Definition is_numeric_key (key : string) : bool :=
  negb (String.eqb key "region") && negb (String.eqb key "crop_type")
  && negb (String.eqb key "irrigation_type")
  && negb (String.eqb key "fertilizer_type")
  && negb (String.eqb key "crop_disease_status").

(** What one iteration of the loop stores under [key]. *)
Definition coerce (key value : string) : jsval :=
  if is_numeric_key key then VNum (Number.parseFloat value) else VStr value.

(** [const data = {}; for (let [key, value] of formData.entries()) ...]:
    every iteration assigns to [data[key]] the number or the string of
    [coerce]. *)
Definition build_payload (entries : list (string * string)) : object :=
  fold_left (fun data e => assign data (fst e) (coerce (fst e) (snd e))) entries [].

Definition predict_request (data : object) : request :=
  {| url := "/api/predict";
     method := "POST";
     headers := [("Content-Type", "application/json")];
     body := JSON.stringify (VObj data) |}.

Definition li (text : string) : node := Element "li" (text_children text).

Definition displayResults (env : browser) (predictions : jsval) : M unit :=
  water <- get_member env predictions "water_requirement_mm_per_day" ;;
  water_text <- call_toFixed env water 2 ;;
  set_textContent waterResult water_text ;;
  fertilizer <- get_member env predictions "fertilizer_requirement_kg_per_week" ;;
  fertilizer_text <- call_toFixed env fertilizer 2 ;;
  set_textContent fertilizerResult fertilizer_text ;;
  yield <- get_member env predictions "expected_yield_kg_per_hectare" ;;
  yield_text <- call_toFixed env yield 0 ;;
  set_textContent yieldResult yield_text ;;
  irrigation <- get_member env predictions "irrigation_recommendation" ;;
  assign_textContent env waterRec irrigation ;;
  recommendation <- get_member env predictions "fertilizer_recommendation" ;;
  assign_textContent env fertilizerRec recommendation ;;
  set_innerHTML_empty tipsList ;;
  tips <- get_member env predictions "yield_optimization_tips" ;;
  call_forEach env tips (fun tip =>
    text <- of_option (TypeError env CannotConvertToPrimitive) (dom_string tip) ;;
    appendChild tipsList (li text)) ;;
  set_style_display results "block" ;;
  scrollIntoView results "smooth".

(** The [try] block of the submit listener. *)
Definition try_block (env : browser) (data : object) : M unit :=
  response <- fetch env (predict_request data) ;;
  result <- response_json response ;;
  success <- get_member env result "success" ;;
  if ToBoolean success then
    predictions <- get_member env result "predictions" ;;
    displayResults env predictions
  else
    error <- get_member env result "error" ;;
    msg <- string_plus env "Error: " error ;;
    alert msg.

(** Its [catch] block. *)
Definition catch_block (error : js_error) : M unit :=
  alert ("Failed to get predictions: " ++ message error).

(** Its [finally] block. *)
Definition finally_block : M unit :=
  set_style_display loadingIndicator "none".

(** The listener of the form's [submit] event. *)
Definition farmForm_submit (env : browser) : M unit :=
  preventDefault ;;
  formData <- new_FormData ;;
  let data := build_payload formData in
  set_style_display loadingIndicator "block" ;;
  set_style_display results "none" ;;
  try_finally (try_catch (try_block env data) catch_block) finally_block.

Definition resetForm : M unit :=
  form_reset ;;
  set_style_display results "none".

(** The listener of the window's [load] event. *)
Definition window_load : M unit :=
  console_log "Precision Farming ML - Frontend Initialized".

(** ** Notions used to state the properties *)

(** The text-field set of the specification. *)
Definition text_fields : list string :=
  ["region"; "crop_type"; "irrigation_type"; "fertilizer_type"; "crop_disease_status"].

Definition is_text_field (key : string) : bool :=
  existsb (String.eqb key) text_fields.

(** The last entry of the form data that carries the name [key]. *)
Definition last_entry (entries : list (string * string)) (key : string)
  : option (string * string) :=
  find (fun e => String.eqb (fst e) key) (rev entries).

(** A string is numeric for [parseFloat] when, after leading white space
    and an optional sign, it starts with a digit, with a point followed by
    a digit, or with [Infinity]. *)
Definition starts_with_digit (s : string) : bool :=
  match s with
  | String c _ => match Number.digit_of c with Some _ => true | None => false end
  | EmptyString => false
  end.

Definition has_numeric_prefix (s : string) : bool :=
  let t := snd (Number.read_sign (Number.trim_start s)) in
  String.prefix "Infinity" t || starts_with_digit t
  || match Number.after_point t with
     | Some r => starts_with_digit r
     | None => false
     end.

(** The members of the JSON object that is written for a payload. *)
Definition transmitted_members (data : object) : list (string * JSON.json) :=
  JSON.own_property_order (JSON.defined_members JSON.to_json data).

Fixpoint all_digits (s : string) : bool :=
  match s with
  | EmptyString => true
  | String c t =>
      match Number.digit_of c with Some _ => all_digits t | None => false end
  end.

(** A finite number of magnitude below 10^21. *)
Definition below_1e21 (x : Number.number) : bool :=
  match x with
  | S754_zero _ => true
  | S754_finite _ m e =>
      let (num, den) := Number.ratio m e in negb (10 ^ 21 * den <=? num)%Z
  | _ => false
  end.

(** The text after an optional minus sign. *)
Definition unsigned_part (text : string) : string :=
  match text with
  | String c t => if Ascii.eqb c "-" then t else text
  | EmptyString => text
  end.

(** Fixed-decimal text with [places] decimal places: an optional minus
    sign and at least one digit, followed, when [places] is positive, by
    a point and exactly [places] digits. *)
Definition fixed_point_text (text : string) (places : nat) : bool :=
  let (whole, rest) := Number.span_digits (unsigned_part text) in
  match whole, places with
  | [], _ => false
  | _ :: _, O => String.eqb rest ""
  | _ :: _, S _ =>
      match Number.after_point rest with
      | Some t =>
          let (fraction, rest') := Number.span_digits t in
          Nat.eqb (List.length fraction) places && String.eqb rest' ""
      | None => false
      end
  end.

(** A parsed value that is an object: a plain object or an array. *)
Definition is_object (v : jsval) : bool :=
  match v with
  | VObj _ | VArr _ => true
  | _ => false
  end.

Definition contains (msg text : string) : Prop :=
  exists before after, msg = before ++ text ++ after.

(** The state in which the request is sent: the default action is
    prevented, the loading indicator shown and the results hidden. *)
Definition submitting (w : world) : world :=
  do_set_display results "none"
    (do_set_display loadingIndicator "block" (do_preventDefault w)).

Definition payload_of (w : world) : object :=
  build_payload (FormData_entries (farmForm w)).

(** The state in which the response is handled. *)
Definition requested (w : world) : world :=
  log (Fetch (predict_request (payload_of w))) (submitting w).

(** The prediction result of the data model: three numbers, two texts and
    a sequence of texts. *)
Definition prediction_result (predictions : jsval)
    (water fertilizer yield : Number.number)
    (irrigation recommendation : string) (tips : list string) : Prop :=
  exists props,
    predictions = VObj props
    /\ get_own props "water_requirement_mm_per_day" = Some (VNum water)
    /\ get_own props "fertilizer_requirement_kg_per_week" = Some (VNum fertilizer)
    /\ get_own props "expected_yield_kg_per_hectare" = Some (VNum yield)
    /\ get_own props "irrigation_recommendation" = Some (VStr irrigation)
    /\ get_own props "fertilizer_recommendation" = Some (VStr recommendation)
    /\ get_own props "yield_optimization_tips" = Some (VArr (map VStr tips)).

(** The page after a prediction result has been rendered. *)
Definition rendered (water fertilizer yield : Number.number)
    (irrigation recommendation : string) (tips : list string) (w : world) : world :=
  log (ScrollIntoView results "smooth")
    (do_set_display results "block"
      (fold_left (fun w' tip => do_appendChild tipsList (li tip) w') tips
        (do_clear tipsList
          (do_set_textContent fertilizerRec recommendation
            (do_set_textContent waterRec irrigation
              (do_set_textContent yieldResult (Number.toFixed yield 0)
                (do_set_textContent fertilizerResult (Number.toFixed fertilizer 2)
                  (do_set_textContent waterResult (Number.toFixed water 2) w)))))))).

(** A later state of the same run: the trace has only grown and a
    prevented default stays prevented. *)
Definition extends (w w' : world) : Prop :=
  (exists l, trace w' = (trace w ++ l)%list)
  /\ (defaultPrevented w = true -> defaultPrevented w' = true).

Definition monotone {A} (m : M A) : Prop := forall w, extends w (snd (m w)).

(** The alerts, the requests and the scrolls of a trace, in order. *)
Definition alerts (t : list effect) : list string :=
  flat_map (fun e => match e with Alert msg => [msg] | _ => [] end) t.

Definition requests (t : list effect) : list request :=
  flat_map (fun e => match e with Fetch r => [r] | _ => [] end) t.

Definition scrolls (t : list effect) : list elem_id :=
  flat_map (fun e => match e with ScrollIntoView i _ => [i] | _ => [] end) t.

(** A computation keeps a view of the state when no run of it, completed
    or not, changes what the view shows. *)
Definition keeps {T A} (view : world -> T) (m : M A) : Prop :=
  forall w, view (snd (m w)) = view w.

(** What a run from [w] establishes: [Q] when it completes, [E] when it
    throws. *)
Definition outcome {A} (m : M A) (w : world)
    (Q : A -> world -> Prop) (E : js_error -> world -> Prop) : Prop :=
  match m w with
  | (Normal a, w') => Q a w'
  | (Throw e, w') => E e w'
  end.

(** What the rendering step leaves alone: alerts, requests, the form, the
    event and the loading indicator. *)
Definition outside_rendering (w : world)
  : list string * list request * list control * bool * element :=
  (alerts (trace w), requests (trace w), farmForm w, defaultPrevented w,
   document w loadingIndicator).

(** The results region and the scrolls so far. *)
Definition results_view (w : world) : element * list elem_id :=
  (document w results, scrolls (trace w)).

Definition is_number (v : jsval) : bool :=
  match v with VNum _ => true | _ => false end.

Definition is_array (v : jsval) : bool :=
  match v with VArr _ => true | _ => false end.

(** The names of the entries, each once, in order of first appearance. *)
Definition distinct_names (entries : list (string * string)) : list string :=
  rev (nodup string_dec (rev (map fst entries))).

(** Those of them for which the loop creates a property: all but
    [__proto__]. *)
Definition payload_names (entries : list (string * string)) : list string :=
  filter (fun k => negb (String.eqb k "__proto__")) (distinct_names entries).

(** The own property names of an object in the order in which they are
    enumerated: the array indices in ascending order, then the other
    names in creation order. *)
Definition own_keys (o : object) : list string :=
  map fst (JSON.own_property_order o).

Definition is_array_index (k : string) : bool :=
  match JSON.array_index k with Some _ => true | None => false end.

(** The number that a name stands for when it is an array index. *)
Definition index_of (k : string) : N :=
  match JSON.array_index k with Some n => n | None => 0%N end.

(** The entries that the default state of the form gives: the default
    value of every enabled, named control that is checked by default if it
    is a checkable one. *)
Definition default_entries (form : list control) : list (string * string) :=
  map (fun c => (name c, defaultValue c))
      (filter (fun c => negb (disabled c) && (negb (checkable c) || defaultChecked c)
                        && negb (String.eqb (name c) "")) form).

(** ** Sample data *)

Definition blank : element := {| style_display := ""; childNodes := [] |}.

Definition sample_page (w_form : list control) : world :=
  {| document := fun i =>
       match i with
       | loadingIndicator | results => {| style_display := "none"; childNodes := [] |}
       | tipsList => {| style_display := ""; childNodes := [li "Rotate crops"] |}
       | _ => blank
       end;
     farmForm := w_form;
     defaultPrevented := false;
     trace := [] |}.

(** A text-like control that is enabled. *)
Definition text_control (n default current : string) : control :=
  {| name := n; checkable := false; disabled := false;
     defaultValue := default; value := current;
     defaultChecked := false; checked := false |}.

(** A checkbox that is enabled. *)
Definition checkbox (n v : string) (default current : bool) : control :=
  {| name := n; checkable := true; disabled := false;
     defaultValue := v; value := v;
     defaultChecked := default; checked := current |}.

Definition sample_form : list control :=
  [ text_control "region" "North" "South";
    text_control "soil_ph" "6.5" "6.8";
    text_control "crop_type" "Wheat" "Rice" ].

(** A form with a checkbox that the user has ticked. *)
Definition ticked_form : list control :=
  [ text_control "soil_ph" "6.5" "7.2";
    checkbox "organic" "1" false true ].

(** 5.678, 12.3 and 4500 are the numbers of the specification's mocked
    response. *)
Definition sample_predictions : jsval :=
  VObj [("water_requirement_mm_per_day", VNum (Number.of_decimal false 5678 (-3)));
        ("fertilizer_requirement_kg_per_week", VNum (Number.of_decimal false 123 (-1)));
        ("expected_yield_kg_per_hectare", VNum (Number.of_decimal false 4500 0));
        ("irrigation_recommendation", VStr "Drip irrigation");
        ("fertilizer_recommendation", VStr "Apply nitrogen");
        ("yield_optimization_tips", VArr [VStr "Tip A"; VStr "Tip B"])].

(** The same result with a water requirement of 10^21. *)
Definition huge_predictions : jsval :=
  VObj [("water_requirement_mm_per_day", VNum (Number.of_decimal false 1 21));
        ("fertilizer_requirement_kg_per_week", VNum (Number.of_decimal false 123 (-1)));
        ("expected_yield_kg_per_hectare", VNum (Number.of_decimal false 4500 0));
        ("irrigation_recommendation", VStr "Drip irrigation");
        ("fertilizer_recommendation", VStr "Apply nitrogen");
        ("yield_optimization_tips", VArr [VStr "Tip A"; VStr "Tip B"])].

Definition sample_messages (t : type_error) : string :=
  match t with
  | CannotReadProperty p => "Cannot read properties of undefined (reading '" ++ p ++ "')"
  | NotAFunction p => p ++ " is not a function"
  | CannotConvertToPrimitive => "Cannot convert object to primitive value"
  end.

Definition answering (o : fetch_outcome) : browser :=
  {| network := fun _ => o; engine_message := sample_messages |}.

Definition success_response : fetch_outcome :=
  FetchResolved {| json := JsonParsed
    (VObj [("success", VBool true); ("predictions", sample_predictions)]) |}.

Definition failure_response : fetch_outcome :=
  FetchResolved {| json := JsonParsed
    (VObj [("success", VBool false); ("error", VStr "bad input")]) |}.

Definition network_failure : js_error :=
  {| error_name := "TypeError"; message := "Failed to fetch" |}.

Definition unparsable_response : fetch_outcome :=
  FetchResolved {| json := JsonRejected
    {| error_name := "SyntaxError"; message := "Unexpected token < in JSON" |} |}.

Definition duplicate_entries : list (string * string) :=
  [("soil_ph", "6.5"); ("soil_ph", "7")].

Definition non_numeric_entries : list (string * string) :=
  [("soil_ph", "abc")].

(** Entries of which one carries the name [__proto__], and entries whose
    names are array indices. *)
Definition proto_entries : list (string * string) :=
  [("__proto__", "5"); ("soil_ph", "6")].

Definition duplicate_proto_entries : list (string * string) :=
  [("__proto__", "5"); ("soil_ph", "6"); ("__proto__", "7")].

Definition indexed_entries : list (string * string) :=
  [("b", "1"); ("10", "2"); ("2", "3")].

(** The results region and the alerts so far. *)
Definition results_and_alerts (w : world) : element * list string :=
  (document w results, alerts (trace w)).

(** The tips of a list of values: [None] when one of them has no text. *)
Definition tip_texts (items : list jsval) : option (list string) :=
  all_some (map dom_string items).

(** The page when the five texts are written and the tips list emptied. *)
Definition texts_written (water fertilizer yield : Number.number)
    (irrigation recommendation : string) (w : world) : world :=
  do_clear tipsList
    (do_set_textContent fertilizerRec recommendation
      (do_set_textContent waterRec irrigation
        (do_set_textContent yieldResult (Number.toFixed yield 0)
          (do_set_textContent fertilizerResult (Number.toFixed fertilizer 2)
            (do_set_textContent waterResult (Number.toFixed water 2) w))))).

(** What is written into the body for a field. *)
Definition json_of_field (key value : string) : JSON.json :=
  if is_text_field key then JSON.JString value
  else if Number.isFinite (Number.parseFloat value)
       then JSON.JNumber (Number.parseFloat value)
       else JSON.JNull.

(** The sample result without its tips. *)
Definition tipless_predictions : jsval :=
  VObj [("water_requirement_mm_per_day", VNum (Number.of_decimal false 5678 (-3)));
        ("fertilizer_requirement_kg_per_week", VNum (Number.of_decimal false 123 (-1)));
        ("expected_yield_kg_per_hectare", VNum (Number.of_decimal false 4500 0));
        ("irrigation_recommendation", VStr "Drip irrigation");
        ("fertilizer_recommendation", VStr "Apply nitrogen")].

(** A result whose second recommendation is [null] and whose tips are a
    string, [null] and the number 2. *)
Definition mixed_properties : object :=
  [("water_requirement_mm_per_day", VNum (Number.of_decimal false 5678 (-3)));
   ("fertilizer_requirement_kg_per_week", VNum (Number.of_decimal false 123 (-1)));
   ("expected_yield_kg_per_hectare", VNum (Number.of_decimal false 4500 0));
   ("irrigation_recommendation", VStr "Drip irrigation");
   ("fertilizer_recommendation", VNull);
   ("yield_optimization_tips", VArr [VStr "Tip A"; VNull; VNum (Number.of_decimal false 2 0)])].

Definition answering_with (result : jsval) : browser :=
  answering (FetchResolved {| json := JsonParsed result |}).

(** * Properties *)

(** ** The request payload *)

Section Payload.

Implicit Types (o : object) (key : string) (entries : list (string * string)).

Lemma get_own_set_prop_same o key v :
  get_own (set_prop o key v) key = Some v.
Proof.
  induction o as [|[k x] t IH]; simpl.
  - now rewrite String.eqb_refl.
  - destruct (String.eqb k key) eqn:E; simpl; rewrite E; auto.
Qed.

Lemma get_own_set_prop_other o key key' v :
  key <> key' -> get_own (set_prop o key v) key' = get_own o key'.
Proof.
  intros Hne. induction o as [|[k x] t IH]; simpl.
  - destruct (String.eqb_spec key key'); congruence.
  - destruct (String.eqb_spec k key) as [->|]; simpl.
    + destruct (String.eqb_spec key key'); congruence.
    + now rewrite IH.
Qed.

Lemma keys_set_prop o key v :
  map fst (set_prop o key v)
  = if in_dec string_dec key (map fst o) then map fst o else (map fst o ++ [key])%list.
Proof.
  induction o as [|[k x] t IH]; simpl; auto.
  destruct (String.eqb_spec k key) as [->|Hne]; simpl.
  - destruct (string_dec key key); congruence.
  - rewrite IH. destruct (string_dec k key); [congruence|].
    destruct (in_dec string_dec key (map fst t)); reflexivity.
Qed.

Lemma NoDup_keys_set_prop o key v :
  NoDup (map fst o) -> NoDup (map fst (set_prop o key v)).
Proof.
  intros H. rewrite keys_set_prop.
  destruct (in_dec string_dec key (map fst o)); auto.
  apply NoDup_app; auto.
  - repeat constructor. simpl. tauto.
  - intros x Hx [<-|[]]. contradiction.
Qed.

Lemma build_payload_snoc entries e :
  build_payload (entries ++ [e])
  = assign (build_payload entries) (fst e) (coerce (fst e) (snd e)).
Proof. unfold build_payload. now rewrite fold_left_app. Qed.

Lemma last_entry_snoc entries e key :
  last_entry (entries ++ [e]) key
  = if String.eqb (fst e) key then Some e else last_entry entries key.
Proof. unfold last_entry. now rewrite rev_app_distr. Qed.

Lemma last_entry_key entries key e :
  last_entry entries key = Some e -> fst e = key.
Proof.
  unfold last_entry. intros H. apply find_some in H as [_ H].
  now apply String.eqb_eq.
Qed.

(** The payload has no property [__proto__], and maps any other name to
    the coerced value of the last entry with that name. *)
Lemma get_own_build_payload entries key :
  get_own (build_payload entries) key
  = if String.eqb key "__proto__" then None
    else option_map (fun e => coerce key (snd e)) (last_entry entries key).
Proof.
  induction entries as [|e entries IH] using rev_ind.
  - now destruct (String.eqb key "__proto__").
  - rewrite build_payload_snoc, last_entry_snoc. unfold assign.
    destruct (String.eqb_spec (fst e) "__proto__") as [He|He].
    + rewrite IH. destruct (String.eqb_spec key "__proto__") as [Hk|Hk]; auto.
      destruct (String.eqb_spec (fst e) key); congruence.
    + destruct (String.eqb_spec (fst e) key) as [<-|Hne].
      * rewrite get_own_set_prop_same.
        destruct (String.eqb_spec (fst e) "__proto__"); [congruence|reflexivity].
      * now rewrite get_own_set_prop_other.
Qed.

Lemma get_own_build_payload_named entries key :
  key <> "__proto__" ->
  get_own (build_payload entries) key
  = option_map (fun e => coerce key (snd e)) (last_entry entries key).
Proof.
  intros Hk. rewrite get_own_build_payload.
  destruct (String.eqb_spec key "__proto__"); congruence.
Qed.

Lemma NoDup_keys_build_payload entries :
  NoDup (map fst (build_payload entries)).
Proof.
  induction entries as [|e entries IH] using rev_ind; [constructor|].
  rewrite build_payload_snoc. unfold assign.
  destruct (String.eqb (fst e) "__proto__"); auto.
  now apply NoDup_keys_set_prop.
Qed.

Lemma get_own_In {A} (ps : list (string * A)) key x :
  NoDup (map fst ps) -> In (key, x) ps -> get_own ps key = Some x.
Proof.
  induction ps as [|[k y] t IH]; simpl; [tauto|].
  intros Hnd [Heq|Hin].
  - inversion Heq; subst. now rewrite String.eqb_refl.
  - inversion Hnd as [|? ? Hk Ht]; subst.
    destruct (String.eqb_spec k key) as [->|]; auto.
    exfalso. apply Hk. now apply (in_map fst) in Hin.
Qed.

Lemma get_own_Some_In {A} (ps : list (string * A)) key x :
  get_own ps key = Some x -> In (key, x) ps.
Proof.
  induction ps as [|[k y] t IH]; simpl; [discriminate|].
  destruct (String.eqb_spec k key) as [->|]; intros H.
  - inversion H; subst; auto.
  - auto.
Qed.

Lemma find_app_none {A} (f : A -> bool) (l1 l2 : list A) :
  (forall x, In x l1 -> f x = false) -> find f (l1 ++ l2) = find f l2.
Proof.
  induction l1 as [|a l1 IH]; simpl; intros H; auto.
  rewrite (H a) by auto. apply IH. intros x Hx. apply H. auto.
Qed.

Lemma last_entry_final pre post key value :
  ~ In key (map fst post) ->
  last_entry (pre ++ (key, value) :: post) key = Some (key, value).
Proof.
  intros Hpost. unfold last_entry.
  rewrite rev_app_distr. simpl. rewrite <- app_assoc.
  rewrite find_app_none.
  - simpl. now rewrite String.eqb_refl.
  - intros e He. apply in_rev in He.
    destruct (String.eqb_spec (fst e) key) as [<-|]; auto.
    exfalso. apply Hpost. now apply in_map.
Qed.

Lemma is_numeric_key_text_field key :
  is_numeric_key key = negb (is_text_field key).
Proof.
  unfold is_numeric_key, is_text_field, text_fields. simpl.
  rewrite !(String.eqb_sym key).
  repeat match goal with |- context [String.eqb ?a key] => destruct (String.eqb a key) end;
    reflexivity.
Qed.

Lemma text_field_not_proto key :
  is_text_field key = true -> key <> "__proto__".
Proof. intros H ->. discriminate H. Qed.

(** A field that no later field of the same name follows is stored under
    its name, coerced, unless its name is [__proto__]. *)
Lemma final_field_stored pre key value post :
  ~ In key (map fst post) ->
  (is_text_field key = false -> key <> "__proto__" ->
   get_own (build_payload (pre ++ (key, value) :: post)) key
   = Some (VNum (Number.parseFloat value)))
  /\ (is_text_field key = true ->
      get_own (build_payload (pre ++ (key, value) :: post)) key
      = Some (VStr value)).
Proof.
  intros Hpost. split.
  - intros Ht Hk. rewrite get_own_build_payload_named by assumption.
    rewrite (last_entry_final _ _ _ _ Hpost).
    unfold coerce. rewrite is_numeric_key_text_field, Ht. reflexivity.
  - intros Ht. rewrite get_own_build_payload_named by now apply text_field_not_proto.
    rewrite (last_entry_final _ _ _ _ Hpost).
    unfold coerce. rewrite is_numeric_key_text_field, Ht. reflexivity.
Qed.

End Payload.

(** ** Serialisation of an object *)

Section Serialisation.

Lemma In_insert_by_index {A} (e x : N * A) (l : list (N * A)) :
  In x (JSON.insert_by_index e l) <-> x = e \/ In x l.
Proof.
  induction l as [|h t IH]; simpl.
  - intuition.
  - destruct (fst e <? fst h)%N; simpl; rewrite ?IH; intuition.
Qed.

Lemma In_sorted_by_index {A} (x : N * A) (l : list (N * A)) :
  In x (fold_right JSON.insert_by_index [] l) <-> In x l.
Proof.
  induction l as [|h t IH]; simpl; [tauto|].
  rewrite In_insert_by_index, IH. intuition.
Qed.

Lemma In_index_entries {A} (ps : list (string * A)) n p :
  In (n, p) (JSON.index_entries ps)
  <-> In p ps /\ JSON.array_index (fst p) = Some n.
Proof.
  unfold JSON.index_entries. rewrite in_flat_map. split.
  - intros [q [Hq Hin]]. destruct (JSON.array_index (fst q)) eqn:E; simpl in Hin.
    + destruct Hin as [Heq|[]]. inversion Heq; subst. auto.
    + contradiction.
  - intros [Hp E]. exists p. rewrite E. simpl. auto.
Qed.

(** Enumeration reorders the properties and neither adds nor drops one. *)
Lemma In_own_property_order {A} (ps : list (string * A)) p :
  In p (JSON.own_property_order ps) <-> In p ps.
Proof.
  unfold JSON.own_property_order, JSON.named_entries.
  rewrite in_app_iff, in_map_iff, filter_In. split.
  - intros [[[n q] [Heq Hin]]|[Hin _]]; auto.
    simpl in Heq. subst q.
    apply In_sorted_by_index, In_index_entries in Hin. tauto.
  - intros Hin. destruct (JSON.array_index (fst p)) as [n|] eqn:E.
    + left. exists (n, p). split; auto.
      apply In_sorted_by_index, In_index_entries. auto.
    + right. auto.
Qed.

Lemma In_defined_members {A B} (f : A -> option B) ps key j :
  In (key, j) (JSON.defined_members f ps)
  <-> exists x, In (key, x) ps /\ f x = Some j.
Proof.
  induction ps as [|[k x] t IH]; simpl.
  - split; [tauto|]. intros [x [[] _]].
  - destruct (f x) as [y|] eqn:E; simpl; rewrite ?IH; split.
    + intros [Heq|[z [Hin Hz]]].
      * inversion Heq; subst. exists x; auto.
      * exists z; auto.
    + intros [z [[Heq|Hin] Hz]].
      * inversion Heq; subst. left. congruence.
      * right. exists z; auto.
    + intros [z [Hin Hz]]. exists z; auto.
    + intros [z [[Heq|Hin] Hz]].
      * inversion Heq; subst. congruence.
      * exists z; auto.
Qed.

(** The members of the document written for a payload: every member comes
    from the property of its name. *)
Lemma payload_member entries key j :
  In (key, j) (transmitted_members (build_payload entries))
  <-> exists x, get_own (build_payload entries) key = Some x /\ JSON.to_json x = Some j.
Proof.
  unfold transmitted_members.
  rewrite In_own_property_order, In_defined_members. split.
  - intros [x [Hin Hx]]. exists x. split; auto.
    apply get_own_In; auto. apply NoDup_keys_build_payload.
  - intros [x [Hget Hx]]. exists x. split; auto. now apply get_own_Some_In.
Qed.

Lemma body_predict_request data :
  body (predict_request data)
  = Some (JSON.render (JSON.JObject (transmitted_members data))).
Proof. reflexivity. Qed.

End Serialisation.

(** ** [parseFloat] of a string that is not numeric *)

Lemma span_digits_no_digit s :
  starts_with_digit s = false -> Number.span_digits s = ([], s).
Proof.
  destruct s as [|c t]; simpl; auto.
  destruct (Number.digit_of c); [discriminate|reflexivity].
Qed.

Lemma parseFloat_not_numeric s :
  has_numeric_prefix s = false -> Number.parseFloat s = Number.NaN.
Proof.
  unfold has_numeric_prefix, Number.parseFloat.
  destruct (Number.read_sign (Number.trim_start s)) as [neg t]. simpl snd.
  intros H. apply orb_false_iff in H as [H Hpoint].
  apply orb_false_iff in H as [Hinf Hdigit].
  rewrite Hinf, (span_digits_no_digit _ Hdigit).
  destruct (Number.after_point t) as [r|]; [|reflexivity].
  now rewrite (span_digits_no_digit _ Hpoint).
Qed.

(** Correct rounding of a non-negative mantissa never yields NaN. *)
Section Rounding.
Variables prec emax : Z.

Lemma iter_pos_invariant {A} (P : A -> Prop) (f : A -> A) :
  (forall x, P x -> P (f x)) -> forall n x, P x -> P (iter_pos f n x).
Proof.
  intros Hf. induction n as [n IH|n IH|]; intros x Hx; simpl; auto.
Qed.

Lemma shr_1_nonneg mrs : (0 <= shr_m mrs)%Z -> (0 <= shr_m (shr_1 mrs))%Z.
Proof.
  destruct mrs as [m r s]. simpl.
  destruct m as [|[p|p|]|[p|p|]]; simpl; lia.
Qed.

Lemma shr_nonneg mrs e n :
  (0 <= shr_m mrs)%Z -> (0 <= shr_m (fst (shr mrs e n)))%Z.
Proof.
  intros H. destruct n; simpl; auto.
  apply (iter_pos_invariant (fun x => (0 <= shr_m x)%Z)); auto.
  apply shr_1_nonneg.
Qed.

Lemma shr_fexp_nonneg m e l :
  (0 <= m)%Z -> (0 <= shr_m (fst (shr_fexp prec emax m e l)))%Z.
Proof.
  intros H. unfold shr_fexp. apply shr_nonneg.
  destruct l as [|[]]; simpl; auto.
Qed.

Lemma round_nearest_even_nonneg m l : (0 <= m)%Z -> (0 <= round_nearest_even m l)%Z.
Proof.
  intros H. destruct l as [|[]]; simpl; try lia.
  destruct (Z.even m); lia.
Qed.

Lemma binary_round_aux_not_nan sx mx ex lx :
  (0 <= mx)%Z -> binary_round_aux prec emax sx mx ex lx <> S754_nan.
Proof.
  intros H. unfold binary_round_aux.
  pose proof (shr_fexp_nonneg mx ex lx H) as H1.
  destruct (shr_fexp prec emax mx ex lx) as [mrs' e']. simpl in H1.
  pose proof (shr_fexp_nonneg _ e' loc_Exact
                (round_nearest_even_nonneg _ (loc_of_shr_record mrs') H1)) as H2.
  destruct (shr_fexp prec emax _ e' loc_Exact) as [mrs'' e'']. simpl in H2.
  destruct (shr_m mrs'') as [|p|p]; try discriminate; [|lia].
  destruct (e'' <=? emax - prec)%Z; discriminate.
Qed.

End Rounding.

Lemma of_decimal_not_nan neg d k : Number.of_decimal neg d k <> Number.NaN.
Proof.
  unfold Number.of_decimal, Number.NaN. destruct d as [|p]; [discriminate|].
  assert (Hr : forall m e, binary_round Number.prec Number.emax neg m e <> S754_nan).
  { intros m e. unfold binary_round.
    destruct (shl_align m e _) as [mz ez]. apply binary_round_aux_not_nan. lia. }
  destruct k as [|q|q]; try apply Hr.
  unfold SFdiv, SFdiv_core_binary.
  match goal with |- context [Z.div_eucl ?a ?b] =>
    pose proof (Z.div_eucl_eq a b ltac:(lia)) as E;
    pose proof (Z_div_mod a b ltac:(lia)) as B;
    assert (Ha : (0 <= a)%Z);
    [|destruct (Z.div_eucl a b) as [qq r]] end.
  { match goal with |- (0 <= match ?s with _ => _ end)%Z => destruct s end; try lia.
    apply Z.shiftl_nonneg. lia. }
  apply binary_round_aux_not_nan. nia.
Qed.


Lemma span_digits_digit s :
  starts_with_digit s = true ->
  exists d ds r, Number.span_digits s = (d :: ds, r).
Proof.
  destruct s as [|c t]; simpl; [discriminate|].
  destruct (Number.digit_of c) as [d|]; [|discriminate].
  intros _. destruct (Number.span_digits t) as [ds r]. eauto.
Qed.

Lemma parseFloat_numeric s :
  has_numeric_prefix s = true -> Number.parseFloat s <> Number.NaN.
Proof.
  unfold has_numeric_prefix, Number.parseFloat.
  destruct (Number.read_sign (Number.trim_start s)) as [neg t]. simpl snd.
  destruct (String.prefix "Infinity" t); [discriminate|]. simpl orb.
  destruct (starts_with_digit t) eqn:Hd; simpl orb.
  - intros _. destruct (span_digits_digit _ Hd) as (d & ds & r & ->).
    destruct (match Number.after_point r with
              | Some t0 => Number.span_digits t0
              | None => ([], r)
              end) as [fp s3].
    apply of_decimal_not_nan.
  - rewrite (span_digits_no_digit _ Hd).
    destruct (Number.after_point t) as [r|]; [|discriminate].
    intros Hr. destruct (span_digits_digit _ Hr) as (d & ds & r' & ->).
    apply of_decimal_not_nan.
Qed.

Lemma parseFloat_NaN_iff s :
  Number.parseFloat s = Number.NaN <-> has_numeric_prefix s = false.
Proof.
  split.
  - intros H. destruct (has_numeric_prefix s) eqn:E; auto.
    now apply parseFloat_numeric in E.
  - apply parseFloat_not_numeric.
Qed.

(** ** Fixed-point text *)

Lemma append_empty_r (s : string) : s ++ "" = s.
Proof. induction s as [|c s IH]; simpl; [reflexivity|now rewrite IH]. Qed.

Lemma length_append (a b : string) :
  String.length (a ++ b) = (String.length a + String.length b)%nat.
Proof. induction a as [|c a IH]; simpl; auto. Qed.

Lemma length_zeros n : String.length (Str.zeros n) = n.
Proof. induction n; simpl; auto. Qed.

Lemma length_drop n s : String.length (Str.drop n s) = (String.length s - n)%nat.
Proof.
  revert s. induction n as [|n IH]; intros [|c s]; simpl; auto.
Qed.

Lemma all_digits_append a b :
  all_digits a = true -> all_digits b = true -> all_digits (a ++ b) = true.
Proof.
  induction a as [|c a IH]; simpl; auto.
  destruct (Number.digit_of c); auto.
Qed.

Lemma all_digits_zeros n : all_digits (Str.zeros n) = true.
Proof. induction n; simpl; auto. Qed.

Lemma all_digits_take n s : all_digits s = true -> all_digits (Str.take n s) = true.
Proof.
  revert s. induction n as [|n IH]; intros [|c s]; simpl; auto.
  destruct (Number.digit_of c); auto.
Qed.

Lemma all_digits_drop n s : all_digits s = true -> all_digits (Str.drop n s) = true.
Proof.
  revert s. induction n as [|n IH]; intros [|c s]; simpl; auto.
  destruct (Number.digit_of c); auto. discriminate.
Qed.

Lemma all_digits_uint d : all_digits (NilEmpty.string_of_uint d) = true.
Proof. induction d; simpl; auto. Qed.

Lemma all_digits_decimal n : all_digits (Str.decimal n) = true.
Proof.
  unfold Str.decimal, NilZero.string_of_uint.
  destruct (N.to_uint (Z.to_N n)); try apply (all_digits_uint (_ _)); reflexivity.
Qed.

Lemma length_take n s : String.length (Str.take n s) = Nat.min n (String.length s).
Proof.
  revert s. induction n as [|n IH]; intros [|c s]; simpl; auto.
Qed.

Lemma decimal_nonempty n : Str.decimal n <> "".
Proof.
  unfold Str.decimal, NilZero.string_of_uint.
  destruct (N.to_uint (Z.to_N n)); discriminate.
Qed.

Lemma span_digits_append a b :
  all_digits a = true -> starts_with_digit b = false ->
  exists l, Number.span_digits (a ++ b) = (l, b) /\ List.length l = String.length a.
Proof.
  intros Ha Hb. induction a as [|c a IH]; simpl in *.
  - exists []. split; auto. now apply span_digits_no_digit.
  - destruct (Number.digit_of c) as [d|]; [|discriminate].
    destruct (IH Ha) as [l [-> Hl]]. exists (d :: l). simpl. auto.
Qed.

Lemma unsigned_part_digits a b :
  all_digits a = true -> a <> "" -> unsigned_part (a ++ b) = a ++ b.
Proof.
  destruct a as [|c a]; [congruence|]. simpl. intros H _.
  destruct (Ascii.eqb_spec c "-") as [->|]; [discriminate H|reflexivity].
Qed.

Lemma fixed_point_text_intro sign whole fraction :
  sign = "" \/ sign = "-" ->
  all_digits whole = true -> whole <> "" -> all_digits fraction = true ->
  fixed_point_text
    (sign ++ whole ++ match String.length fraction with
                      | O => ""
                      | S _ => "." ++ fraction
                      end)
    (String.length fraction) = true.
Proof.
  intros Hs Hw Hne Hf. unfold fixed_point_text.
  replace (unsigned_part (sign ++ _))
    with (whole ++ match String.length fraction with
                   | O => ""
                   | S _ => "." ++ fraction
                   end)
    by (destruct Hs as [->| ->]; simpl; [now rewrite unsigned_part_digits|reflexivity]).
  destruct (span_digits_append whole
              (match String.length fraction with O => "" | S _ => "." ++ fraction end) Hw)
    as [l [-> Hl]].
  { destruct (String.length fraction); reflexivity. }
  destruct l as [|d l]; [destruct whole; [congruence|discriminate Hl]|].
  destruct (String.length fraction) as [|n] eqn:E; [reflexivity|].
  simpl Number.after_point.
  destruct (span_digits_append fraction "" Hf eq_refl) as [l' [H' Hl']].
  rewrite append_empty_r in H'. rewrite H', Hl', E, Nat.eqb_refl. reflexivity.
Qed.

(** Below 10^21 in magnitude, [toFixed] writes fixed-decimal text with
    the number of decimal places asked for. *)
Lemma toFixed_fixed_point x f :
  below_1e21 x = true -> fixed_point_text (Number.toFixed x f) f = true.
Proof.
  intros H.
  assert (exists sign whole fraction,
            Number.toFixed x f
            = sign ++ whole ++ match String.length fraction with
                               | O => ""
                               | S _ => "." ++ fraction
                               end
            /\ (sign = "" \/ sign = "-")
            /\ all_digits whole = true /\ whole <> ""
            /\ all_digits fraction = true /\ String.length fraction = f)
    as (sign & whole & fraction & -> & Hs & Hw & Hne & Hf & <-).
  2: now apply fixed_point_text_intro.
  destruct x as [s|s| |s m e]; try discriminate.
  - exists "", "0", (Str.zeros f).
    rewrite all_digits_zeros, length_zeros.
    repeat split; auto; [destruct f; reflexivity|discriminate].
  - unfold below_1e21 in H. unfold Number.toFixed.
    destruct (Number.ratio m e) as [num den].
    apply negb_true_iff in H. rewrite H.
    set (ds := Str.decimal _).
    pose proof (all_digits_decimal ((2 * num * 10 ^ Z.of_nat f + den) / (2 * den))) as Hds.
    pose proof (decimal_nonempty ((2 * num * 10 ^ Z.of_nat f + den) / (2 * den))) as Hne.
    fold ds in Hds, Hne.
    destruct f as [|f].
    + exists (if s then "-" else ""), ds, "". simpl.
      rewrite append_empty_r. repeat split; auto. destruct s; auto.
    + set (padded := if (String.length ds <=? S f)%nat then _ else ds).
      assert (Hd : all_digits padded = true).
      { unfold padded. destruct (String.length ds <=? S f)%nat; auto.
        apply all_digits_append; [apply all_digits_zeros|exact Hds]. }
      assert (Hl : (S f < String.length padded)%nat).
      { unfold padded. destruct (Nat.leb_spec (String.length ds) (S f)).
        - rewrite length_append, length_zeros.
          destruct ds; [congruence|simpl in *; lia].
        - lia. }
      exists (if s then "-" else ""), (Str.take (String.length padded - S f) padded),
             (Str.drop (String.length padded - S f) padded).
      rewrite length_drop.
      replace (String.length padded - (String.length padded - S f))%nat with (S f) by lia.
      split; [reflexivity|]. split; [destruct s; auto|].
      split; [now apply all_digits_take|]. split; [|split; [now apply all_digits_drop|reflexivity]].
      intros E. apply (f_equal String.length) in E. rewrite length_take in E.
      simpl in E. lia.
Qed.


(** ** Computations *)

Lemma contains_suffix (prefix text : string) : contains (prefix ++ text) text.
Proof. exists prefix, "". now rewrite append_empty_r. Qed.

Lemma bind_normal {A B} (m : M A) (k : A -> M B) w a w' :
  m w = (Normal a, w') -> bind m k w = k a w'.
Proof. unfold bind. now intros ->. Qed.

Lemma bind_throw {A B} (m : M A) (k : A -> M B) w e w' :
  m w = (Throw e, w') -> bind m k w = (Throw e, w').
Proof. unfold bind. now intros ->. Qed.

Lemma try_catch_normal {A} (block : M A) handler w a w' :
  block w = (Normal a, w') -> try_catch block handler w = (Normal a, w').
Proof. unfold try_catch. now intros ->. Qed.

Lemma try_catch_throw {A} (block : M A) handler w e w' :
  block w = (Throw e, w') -> try_catch block handler w = handler e w'.
Proof. unfold try_catch. now intros ->. Qed.

(** A [finally] block that is a plain effect runs after the block, however
    the block completes, and keeps its completion. *)
Lemma try_finally_act {A} (block : M A) f w :
  try_finally block (act f) w = (fst (block w), f (snd (block w))).
Proof. unfold try_finally, act. now destruct (block w). Qed.

(** ** Later states of a run *)

Lemma extends_refl w : extends w w.
Proof. split; auto. exists []. now rewrite app_nil_r. Qed.

Lemma extends_trans w1 w2 w3 : extends w1 w2 -> extends w2 w3 -> extends w1 w3.
Proof.
  intros [[l1 H1] D1] [[l2 H2] D2]. split; auto.
  exists (l1 ++ l2)%list. now rewrite H2, H1, app_assoc.
Qed.

Lemma extends_log e w : extends w (log e w).
Proof. split; auto. now exists [e]. Qed.

Lemma extends_with_element i f w : extends w (with_element i f w).
Proof. split; auto. exists []. simpl. now rewrite app_nil_r. Qed.

Lemma extends_preventDefault w : extends w (do_preventDefault w).
Proof. split; auto. now exists [PreventDefault]. Qed.

Lemma extends_set_display i v w : extends w (do_set_display i v w).
Proof.
  eapply extends_trans; [apply extends_with_element|apply extends_log].
Qed.

Lemma extends_set_textContent i s w : extends w (do_set_textContent i s w).
Proof.
  eapply extends_trans; [apply extends_with_element|apply extends_log].
Qed.

Lemma extends_clear i w : extends w (do_clear i w).
Proof.
  eapply extends_trans; [apply extends_with_element|apply extends_log].
Qed.

Lemma extends_appendChild i n w : extends w (do_appendChild i n w).
Proof.
  eapply extends_trans; [apply extends_with_element|apply extends_log].
Qed.

Lemma extends_form_reset w : extends w (do_form_reset w).
Proof. split; auto. now exists [FormReset]. Qed.

Create HintDb js discriminated.

#[local] Hint Resolve extends_refl extends_log extends_preventDefault
  extends_set_display extends_set_textContent extends_clear
  extends_appendChild extends_form_reset : js.

Lemma monotone_ret {A} (a : A) : monotone (ret a).
Proof. intros w. apply extends_refl. Qed.

Lemma monotone_throw {A} e : monotone (@throw A e).
Proof. intros w. apply extends_refl. Qed.

Lemma monotone_act f : (forall w, extends w (f w)) -> monotone (act f).
Proof. intros H w. apply H. Qed.

Lemma monotone_bind {A B} (m : M A) (k : A -> M B) :
  monotone m -> (forall a, monotone (k a)) -> monotone (bind m k).
Proof.
  intros Hm Hk w. unfold bind. specialize (Hm w).
  destruct (m w) as [[a|e] w']; simpl in *; auto.
  eapply extends_trans; [exact Hm|apply Hk].
Qed.

Lemma monotone_try_catch {A} (block : M A) handler :
  monotone block -> (forall e, monotone (handler e)) -> monotone (try_catch block handler).
Proof.
  intros Hb Hh w. unfold try_catch. specialize (Hb w).
  destruct (block w) as [[a|e] w']; simpl in *; auto.
  eapply extends_trans; [exact Hb|apply Hh].
Qed.

Lemma monotone_try_finally {A} (block : M A) finalizer :
  monotone block -> monotone finalizer -> monotone (try_finally block finalizer).
Proof.
  intros Hb Hf w. unfold try_finally. specialize (Hb w).
  destruct (block w) as [c w']. specialize (Hf w').
  destruct (finalizer w') as [[[]|e] w'']; simpl in *;
    eapply extends_trans; eauto.
Qed.

Lemma monotone_of_option {A} e (o : option A) : monotone (of_option e o).
Proof. destruct o; [apply monotone_ret|apply monotone_throw]. Qed.

Lemma monotone_forEach {A} (l : list A) f :
  (forall x, monotone (f x)) -> monotone (forEach l f).
Proof.
  intros Hf. induction l as [|x t IH]; simpl.
  - apply monotone_ret.
  - apply monotone_bind; auto.
Qed.

Lemma monotone_fetch env r : monotone (fetch env r).
Proof. intros w. unfold fetch. destruct (network env r); apply extends_log. Qed.

Lemma monotone_response_json r : monotone (response_json r).
Proof.
  unfold response_json. destruct (json r); [apply monotone_ret|apply monotone_throw].
Qed.

Lemma monotone_get_member env v prop : monotone (get_member env v prop).
Proof. destruct v; first [apply monotone_ret|apply monotone_throw]. Qed.

Lemma monotone_call_toFixed env v digits : monotone (call_toFixed env v digits).
Proof. destruct v; first [apply monotone_ret|apply monotone_throw]. Qed.

Lemma monotone_call_forEach env v f :
  (forall x, monotone (f x)) -> monotone (call_forEach env v f).
Proof.
  intros Hf. destruct v; simpl; try apply monotone_throw.
  now apply monotone_forEach.
Qed.

#[local] Hint Resolve monotone_ret monotone_throw monotone_of_option
  monotone_fetch monotone_response_json monotone_get_member
  monotone_call_toFixed : js.

Ltac monotone_step :=
  match goal with
  | |- monotone (bind _ _) => apply monotone_bind; [|intros ?]
  | |- monotone (try_finally _ _) => apply monotone_try_finally
  | |- monotone (try_catch _ _) => apply monotone_try_catch; [|intros ?]
  | |- monotone (call_forEach _ _ _) => apply monotone_call_forEach; intros ?
  | |- monotone (act _) => apply monotone_act; intros ?
  | |- monotone (if ?b then _ else _) => destruct b
  | |- _ => solve [auto with js]
  end.

Lemma monotone_string_plus env prefix v : monotone (string_plus env prefix v).
Proof. unfold string_plus. repeat monotone_step. Qed.

Lemma monotone_assign_textContent env i v : monotone (assign_textContent env i v).
Proof. unfold assign_textContent, set_textContent. repeat monotone_step. Qed.

Lemma monotone_displayResults env predictions : monotone (displayResults env predictions).
Proof.
  unfold displayResults, set_textContent, set_innerHTML_empty, appendChild,
    set_style_display, scrollIntoView.
  repeat first [apply monotone_assign_textContent | monotone_step].
Qed.

Lemma monotone_try_block env data : monotone (try_block env data).
Proof.
  unfold try_block, alert.
  repeat first [apply monotone_displayResults | apply monotone_string_plus
               | monotone_step].
Qed.

Lemma monotone_catch_block error : monotone (catch_block error).
Proof. unfold catch_block, alert. repeat monotone_step. Qed.

Lemma monotone_finally_block : monotone finally_block.
Proof. unfold finally_block, set_style_display. repeat monotone_step. Qed.

(** ** Rendering *)

Lemma document_log e w : document (log e w) = document w.
Proof. reflexivity. Qed.

Lemma document_set_display i v w j :
  document (do_set_display i v w) j
  = if elem_id_eqb i j
    then {| style_display := v; childNodes := childNodes (document w j) |}
    else document w j.
Proof. reflexivity. Qed.

Lemma textContent_text_children s : textContent (text_children s) = s.
Proof. destruct s; reflexivity. Qed.

Lemma node_text_li text : node_text (li text) = text.
Proof. exact (textContent_text_children text). Qed.

Lemma node_text_tips tips : map node_text (map li tips) = tips.
Proof.
  induction tips as [|t tips IH]; [reflexivity|].
  cbn [map]. now rewrite node_text_li, IH.
Qed.

Lemma append_tips_document tips w i :
  document (fold_left (fun w' tip => do_appendChild tipsList (li tip) w') tips w) i
  = if elem_id_eqb tipsList i
    then {| style_display := style_display (document w i);
            childNodes := (childNodes (document w i) ++ map li tips)%list |}
    else document w i.
Proof.
  revert w. induction tips as [|t tips IH]; intros w; simpl fold_left.
  - simpl map. rewrite app_nil_r.
    destruct i; simpl; auto. now destruct (document w tipsList).
  - rewrite IH. destruct i; simpl; auto.
    now rewrite <- app_assoc.
Qed.

Lemma append_tips_trace tips w :
  trace (fold_left (fun w' tip => do_appendChild tipsList (li tip) w') tips w)
  = (trace w ++ map (fun tip => AppendChild tipsList (li tip)) tips)%list.
Proof.
  revert w. induction tips as [|t tips IH]; intros w; simpl fold_left.
  - simpl. now rewrite app_nil_r.
  - rewrite IH. simpl. now rewrite <- app_assoc.
Qed.

Lemma forEach_tips env tips w :
  forEach (map VStr tips)
    (fun tip =>
       bind (of_option (TypeError env CannotConvertToPrimitive) (dom_string tip))
            (fun text => appendChild tipsList (li text))) w
  = (Normal tt, fold_left (fun w' tip => do_appendChild tipsList (li tip) w') tips w).
Proof.
  revert w. induction tips as [|t tips IH]; intros w; [reflexivity|].
  simpl map. simpl forEach. simpl fold_left. rewrite <- IH. reflexivity.
Qed.

(** Rendering a prediction result completes and leaves the page
    [rendered]. *)
Lemma displayResults_run env predictions water fertilizer yield
    irrigation recommendation tips w :
  prediction_result predictions water fertilizer yield irrigation recommendation tips ->
  displayResults env predictions w
  = (Normal tt, rendered water fertilizer yield irrigation recommendation tips w).
Proof.
  intros (props & -> & Hw & Hf & Hy & Hi & Hr & Ht).
  unfold displayResults, get_member, member, member_of.
  rewrite Hw, Hf, Hy, Hi, Hr, Ht. unfold rendered.
  repeat (erewrite bind_normal by reflexivity).
  erewrite bind_normal by (unfold call_forEach; apply forEach_tips).
  reflexivity.
Qed.

Lemma rendered_document water fertilizer yield irrigation recommendation tips w i :
  document (rendered water fertilizer yield irrigation recommendation tips w) i
  = match i with
    | loadingIndicator => document w i
    | results =>
        {| style_display := "block"; childNodes := childNodes (document w i) |}
    | tipsList =>
        {| style_display := style_display (document w i); childNodes := map li tips |}
    | _ =>
        {| style_display := style_display (document w i);
           childNodes :=
             text_children
               match i with
               | waterResult => Number.toFixed water 2
               | fertilizerResult => Number.toFixed fertilizer 2
               | yieldResult => Number.toFixed yield 0
               | waterRec => irrigation
               | _ => recommendation
               end |}
    end.
Proof.
  unfold rendered.
  rewrite document_log, document_set_display, append_tips_document.
  destruct i; reflexivity.
Qed.

Lemma rendered_trace water fertilizer yield irrigation recommendation tips w :
  trace (rendered water fertilizer yield irrigation recommendation tips w)
  = (trace w
     ++ [SetTextContent waterResult (Number.toFixed water 2);
         SetTextContent fertilizerResult (Number.toFixed fertilizer 2);
         SetTextContent yieldResult (Number.toFixed yield 0);
         SetTextContent waterRec irrigation;
         SetTextContent fertilizerRec recommendation;
         ClearChildren tipsList]
     ++ map (fun tip => AppendChild tipsList (li tip)) tips
     ++ [SetStyleDisplay results "block"; ScrollIntoView results "smooth"])%list.
Proof.
  unfold rendered.
  change (trace (log ?e ?w')) with (trace w' ++ [e])%list.
  change (trace (do_set_display ?i ?v ?w')) with (trace w' ++ [SetStyleDisplay i v])%list.
  rewrite append_tips_trace.
  cbn [trace do_clear do_set_textContent log do_set_children with_element].
  repeat rewrite <- app_assoc. reflexivity.
Qed.

Lemma sample_is_prediction_result :
  prediction_result sample_predictions
    (Number.of_decimal false 5678 (-3)) (Number.of_decimal false 123 (-1))
    (Number.of_decimal false 4500 0)
    "Drip irrigation" "Apply nitrogen" ["Tip A"; "Tip B"].
Proof. eexists. repeat split. Qed.

(** ** The submit listener *)

Lemma submit_unfold env w :
  farmForm_submit env w
  = try_finally (try_catch (try_block env (payload_of w)) catch_block) finally_block
      (submitting w).
Proof. reflexivity. Qed.

Lemma submitting_trace w :
  trace (submitting w)
  = (trace w ++ [PreventDefault; SetStyleDisplay loadingIndicator "block";
                 SetStyleDisplay results "none"])%list.
Proof. simpl. now repeat rewrite <- app_assoc. Qed.

Lemma requested_trace w :
  trace (requested w)
  = (trace w ++ [PreventDefault; SetStyleDisplay loadingIndicator "block";
                 SetStyleDisplay results "none";
                 Fetch (predict_request (payload_of w))])%list.
Proof. unfold requested. cbn [log trace]. rewrite submitting_trace. now rewrite <- app_assoc. Qed.

Lemma try_block_rejected env data w error :
  network env (predict_request data) = FetchRejected error ->
  try_block env data w = (Throw error, log (Fetch (predict_request data)) w).
Proof.
  intros H. unfold try_block. apply bind_throw. unfold fetch. now rewrite H.
Qed.

Lemma try_block_unparsable env data w r error :
  network env (predict_request data) = FetchResolved r ->
  json r = JsonRejected error ->
  try_block env data w = (Throw error, log (Fetch (predict_request data)) w).
Proof.
  intros H J. unfold try_block.
  erewrite bind_normal by (unfold fetch; rewrite H; reflexivity).
  apply bind_throw. unfold response_json. now rewrite J.
Qed.

Lemma try_block_parsed env data w r result :
  network env (predict_request data) = FetchResolved r ->
  json r = JsonParsed result ->
  try_block env data w
  = bind (get_member env result "success")
      (fun success =>
         if ToBoolean success then
           bind (get_member env result "predictions")
                (fun predictions => displayResults env predictions)
         else
           bind (get_member env result "error")
                (fun error => bind (string_plus env "Error: " error)
                                   (fun msg => alert msg)))
      (log (Fetch (predict_request data)) w).
Proof.
  intros H J. unfold try_block.
  erewrite bind_normal by (unfold fetch; rewrite H; reflexivity).
  erewrite bind_normal by (unfold response_json; rewrite J; reflexivity).
  reflexivity.
Qed.

(** The [catch] block always completes, so the [try]/[catch] does. *)
Lemma try_catch_completes env data w :
  fst (try_catch (try_block env data) catch_block w) = Normal tt.
Proof.
  unfold try_catch. destruct (try_block env data w) as [[[]|e] w']; reflexivity.
Qed.

Lemma submit_run env w :
  farmForm_submit env w
  = (Normal tt,
     do_set_display loadingIndicator "none"
       (snd (try_catch (try_block env (payload_of w)) catch_block (submitting w)))).
Proof.
  rewrite submit_unfold. unfold finally_block, set_style_display.
  rewrite try_finally_act. now rewrite try_catch_completes.
Qed.

Lemma try_catch_ext {A} (block1 block2 : M A) handler w1 w2 :
  block1 w1 = block2 w2 -> try_catch block1 handler w1 = try_catch block2 handler w2.
Proof. unfold try_catch. now intros ->. Qed.

Lemma try_finally_ext {A} (block1 block2 : M A) finalizer w1 w2 :
  block1 w1 = block2 w2 -> try_finally block1 finalizer w1 = try_finally block2 finalizer w2.
Proof. unfold try_finally. now intros ->. Qed.

(** The request is the first effect of the [try] block. *)
Lemma try_block_fetches env data w :
  exists l, trace (snd (try_block env data w))
            = (trace w ++ Fetch (predict_request data) :: l)%list.
Proof.
  destruct (network env (predict_request data)) as [r|error] eqn:H.
  - destruct (json r) as [result|error] eqn:J.
    + rewrite (try_block_parsed _ _ _ _ _ H J).
      match goal with
      | |- context [snd (?m ?w0)] =>
          assert (Hm : monotone m)
            by (unfold alert;
                repeat first [apply monotone_displayResults
                             | apply monotone_string_plus | monotone_step]);
          destruct (Hm w0) as [[l Hl] _]
      end.
      exists l. rewrite Hl. cbn [trace log]. now rewrite <- app_assoc.
    + rewrite (try_block_unparsable _ _ _ _ _ H J). now exists [].
  - rewrite (try_block_rejected _ _ _ _ H). now exists [].
Qed.

(** The run of the listener when the response reports a failure. *)
Lemma submit_reported_failure env w response result text :
  network env (predict_request (payload_of w)) = FetchResolved response ->
  json response = JsonParsed result ->
  is_object result = true ->
  ToBoolean (member result "success") = false ->
  ToString (member result "error") = Some text ->
  farmForm_submit env w
  = (Normal tt,
     do_set_display loadingIndicator "none"
       (log (Alert ("Error: " ++ text)) (requested w))).
Proof.
  intros H J Ho Hs He. rewrite submit_run. do 2 f_equal.
  erewrite try_catch_normal; [reflexivity|].
  rewrite (try_block_parsed _ _ _ _ _ H J).
  destruct result; try discriminate Ho;
    (erewrite bind_normal by reflexivity; rewrite Hs;
     erewrite bind_normal by reflexivity;
     unfold string_plus; rewrite He; reflexivity).
Qed.

(** The run of the listener when no parsed response arrives. *)
Lemma submit_transport_failure env w error :
  (network env (predict_request (payload_of w)) = FetchRejected error
   \/ exists response,
        network env (predict_request (payload_of w)) = FetchResolved response
        /\ json response = JsonRejected error) ->
  farmForm_submit env w
  = (Normal tt,
     do_set_display loadingIndicator "none"
       (log (Alert ("Failed to get predictions: " ++ message error)) (requested w))).
Proof.
  intros H. rewrite submit_run. do 2 f_equal.
  erewrite try_catch_throw; [reflexivity|].
  destruct H as [H|[response [H J]]].
  - now apply try_block_rejected.
  - now apply try_block_unparsable with response.
Qed.

(** The run of the listener when the response reports success. *)
Lemma submit_success env w response result :
  network env (predict_request (payload_of w)) = FetchResolved response ->
  json response = JsonParsed result ->
  is_object result = true ->
  ToBoolean (member result "success") = true ->
  farmForm_submit env w
  = try_finally
      (try_catch (displayResults env (member result "predictions")) catch_block)
      finally_block (requested w).
Proof.
  intros H J Ho Hs. rewrite submit_unfold.
  apply try_finally_ext, try_catch_ext.
  rewrite (try_block_parsed _ _ _ _ _ H J).
  destruct result; try discriminate Ho;
    (erewrite bind_normal by reflexivity; rewrite Hs;
     erewrite bind_normal by reflexivity; reflexivity).
Qed.

(** ** Sample runs *)

Example parseFloat_samples :
  Number.parseFloat "6.8" = Number.of_decimal false 68 (-1)
  /\ Number.parseFloat "  12abc" = Number.of_decimal false 12 0
  /\ Number.parseFloat "-.5e1" = Number.of_decimal true 5 0
  /\ Number.parseFloat "abc" = Number.NaN
  /\ Number.parseFloat "" = Number.NaN.
Proof. repeat split. Qed.

Example toFixed_samples :
  Number.toFixed (Number.of_decimal false 5678 (-3)) 2 = "5.68"
  /\ Number.toFixed (Number.of_decimal false 123 (-1)) 2 = "12.30"
  /\ Number.toFixed (Number.of_decimal false 4500 0) 0 = "4500"
  /\ Number.toFixed (Number.of_decimal false 1005 (-3)) 2 = "1.00"
  /\ Number.toFixed (Number.of_decimal true 1 (-3)) 2 = "-0.00"
  /\ Number.toFixed (Number.of_decimal false 1 21) 2 = "1e+21"
  /\ Number.toFixed Number.NaN 2 = "NaN".
Proof. repeat split; vm_compute; reflexivity. Qed.

Example toString_samples :
  Number.toString (Number.of_decimal false 68 (-1)) = "6.8"
  /\ Number.toString (Number.of_decimal false 1 (-1)) = "0.1"
  /\ Number.toString (Number.of_decimal false 1 23) = "1e+23"
  /\ Number.toString (Number.of_decimal false 15 (-8)) = "1.5e-7"
  /\ Number.toString (Number.of_decimal true 4500 0) = "-4500".
Proof. repeat split; vm_compute; reflexivity. Qed.

(** The body sent for the sample form. *)
Example sample_body :
  body (predict_request (payload_of (sample_page sample_form)))
  = Some ("{" ++ JSON.quote "region" ++ ":" ++ JSON.quote "South" ++ ","
          ++ JSON.quote "soil_ph" ++ ":6.8,"
          ++ JSON.quote "crop_type" ++ ":" ++ JSON.quote "Rice" ++ "}").
Proof. vm_compute. reflexivity. Qed.

(** A field named [__proto__] creates no property: the body holds the
    other field only. *)
Example proto_body :
  build_payload proto_entries = [("soil_ph", VNum (Number.of_decimal false 6 0))]
  /\ body (predict_request (build_payload proto_entries))
     = Some ("{" ++ JSON.quote "soil_ph" ++ ":6}").
Proof. split; vm_compute; reflexivity. Qed.

(** Names that are array indices come first in the body, in ascending
    order, whatever the order of the fields. *)
Example indexed_body :
  map fst (build_payload indexed_entries) = ["b"; "10"; "2"]
  /\ own_keys (build_payload indexed_entries) = ["2"; "10"; "b"]
  /\ body (predict_request (build_payload indexed_entries))
     = Some ("{" ++ JSON.quote "2" ++ ":3," ++ JSON.quote "10" ++ ":2,"
             ++ JSON.quote "b" ++ ":1}").
Proof. repeat split; vm_compute; reflexivity. Qed.

(** A checkbox that the user has ticked is submitted; after a reset it is
    unticked again and the form data leave it out. *)
Example reset_unticks :
  FormData_entries ticked_form = [("soil_ph", "7.2"); ("organic", "1")]
  /\ FormData_entries (farmForm (snd (resetForm (sample_page ticked_form))))
     = [("soil_ph", "6.5")]
  /\ body (predict_request (payload_of (snd (resetForm (sample_page ticked_form)))))
     = Some ("{" ++ JSON.quote "soil_ph" ++ ":6.5}").
Proof. repeat split; vm_compute; reflexivity. Qed.

(** The specification's mocked success: the three texts, the two tips,
    the results shown and the loading indicator hidden. *)
Example submit_success_sample :
  fst (farmForm_submit (answering success_response) (sample_page sample_form)) = Normal tt
  /\ map (fun i => textContent (childNodes
              (document (snd (farmForm_submit (answering success_response)
                                (sample_page sample_form))) i)))
         [waterResult; fertilizerResult; yieldResult; waterRec; fertilizerRec]
     = ["5.68"; "12.30"; "4500"; "Drip irrigation"; "Apply nitrogen"]
  /\ childNodes (document (snd (farmForm_submit (answering success_response)
                                  (sample_page sample_form))) tipsList)
     = [li "Tip A"; li "Tip B"]
  /\ visible (snd (farmForm_submit (answering success_response)
                     (sample_page sample_form))) results
  /\ hidden (snd (farmForm_submit (answering success_response)
                    (sample_page sample_form))) loadingIndicator.
Proof. repeat split; vm_compute; reflexivity. Qed.

(** A response that reports success without a usable prediction: the
    rendering step throws, the [catch] block reports it, and the results
    stay hidden. *)
Example submit_malformed_predictions :
  trace (snd (farmForm_submit
                (answering (FetchResolved {| json := JsonParsed
                              (VObj [("success", VBool true)]) |}))
                (sample_page sample_form)))
  = [PreventDefault; SetStyleDisplay loadingIndicator "block";
     SetStyleDisplay results "none";
     Fetch (predict_request (payload_of (sample_page sample_form)));
     Alert ("Failed to get predictions: "
            ++ sample_messages (CannotReadProperty "water_requirement_mm_per_day"));
     SetStyleDisplay loadingIndicator "none"]
  /\ hidden (snd (farmForm_submit
                    (answering (FetchResolved {| json := JsonParsed
                                  (VObj [("success", VBool true)]) |}))
                    (sample_page sample_form))) results.
Proof. split; vm_compute; reflexivity. Qed.

(** * The claims *)

(** ** Building the request *)

(** C1, as amended.  A form field that no later field of the same name
    follows, and whose name is not [__proto__], is stored in the payload
    under its name: as the [parseFloat] of its string value when its name
    is not in the text-field set, and as its string value unchanged when
    it is (a name of the text-field set is not [__proto__]).  Under the
    name [__proto__] the payload stores nothing, whatever the form. *)
Theorem C1_payload_coercion pre key value post :
  ~ In key (map fst post) ->
  (is_text_field key = false -> key <> "__proto__" ->
   get_own (build_payload (pre ++ (key, value) :: post)) key
   = Some (VNum (Number.parseFloat value)))
  /\ (is_text_field key = true ->
      get_own (build_payload (pre ++ (key, value) :: post)) key
      = Some (VStr value))
  /\ get_own (build_payload (pre ++ (key, value) :: post)) "__proto__" = None.
Proof.
  intros Hpost. destruct (final_field_stored pre key value post Hpost) as [Hn Ht].
  split; [exact Hn|]. split; [exact Ht|].
  now rewrite get_own_build_payload.
Qed.

Lemma C1_payload_coercion_witness :
  get_own (build_payload [("region", "South"); ("soil_ph", "6.8"); ("crop_type", "Rice")])
    "soil_ph"
  = Some (VNum (Number.parseFloat "6.8"))
  /\ get_own (build_payload [("region", "South"); ("soil_ph", "6.8"); ("crop_type", "Rice")])
       "region"
     = Some (VStr "South").
Proof.
  split.
  - refine (proj1 (C1_payload_coercion [("region", "South")] "soil_ph" "6.8"
                     [("crop_type", "Rice")] _) _ _).
    + simpl. intros [H|[]]. discriminate H.
    + reflexivity.
    + discriminate.
  - refine (proj1 (proj2 (C1_payload_coercion [] "region" "South"
                     [("soil_ph", "6.8"); ("crop_type", "Rice")] _)) _).
    + simpl. intros [H|[H|[]]]; discriminate H.
    + reflexivity.
Defined.

(** C1 as stated fails on a repeated name: the first [soil_ph] field holds
    6.5, not a text field, and the payload holds 7 under that name. *)
Lemma C1_duplicate_name_counterexample :
  In ("soil_ph", "6.5") duplicate_entries
  /\ is_text_field "soil_ph" = false
  /\ get_own (build_payload duplicate_entries) "soil_ph"
     = Some (VNum (Number.parseFloat "7"))
  /\ get_own (build_payload duplicate_entries) "soil_ph"
     <> Some (VNum (Number.parseFloat "6.5")).
Proof.
  split; [left; reflexivity|]. split; [reflexivity|]. split; [reflexivity|].
  vm_compute. discriminate.
Qed.

(** C10, as amended.  Whatever the entries, repeated names included, the
    payload maps a name other than [__proto__] to the coerced value of the
    last entry with that name, and has no property [__proto__]; it holds
    one property per name, and neither the payload nor the document
    written into the request body carries the value of an earlier
    entry. *)
Theorem C10_last_duplicate_wins entries key :
  get_own (build_payload entries) key
  = (if String.eqb key "__proto__" then None
     else option_map (fun e => coerce key (snd e)) (last_entry entries key))
  /\ NoDup (map fst (build_payload entries))
  /\ (forall x, In (key, x) (build_payload entries) ->
        exists v, last_entry entries key = Some (key, v) /\ x = coerce key v)
  /\ (forall j, In (key, j) (transmitted_members (build_payload entries)) ->
        exists v, last_entry entries key = Some (key, v)
                  /\ JSON.to_json (coerce key v) = Some j)
  /\ body (predict_request (build_payload entries))
     = Some (JSON.render (JSON.JObject (transmitted_members (build_payload entries)))).
Proof.
  assert (Hlast : forall x, get_own (build_payload entries) key = Some x ->
            exists v, last_entry entries key = Some (key, v) /\ x = coerce key v).
  { intros x. rewrite get_own_build_payload.
    destruct (String.eqb key "__proto__"); [discriminate|].
    destruct (last_entry entries key) as [[k v]|] eqn:E; [|discriminate].
    apply last_entry_key in E as Hk. simpl in *. subst k.
    intros H. inversion H. eauto. }
  split; [apply get_own_build_payload|].
  split; [apply NoDup_keys_build_payload|].
  split; [|split; [|apply body_predict_request]].
  - intros x Hin. apply Hlast, get_own_In; auto. apply NoDup_keys_build_payload.
  - intros j Hin. apply payload_member in Hin as [x [Hx Hj]].
    destruct (Hlast x Hx) as [v [Hv ->]]. eauto.
Qed.

(** C10 as stated fails on the name [__proto__]: the last entry of that
    name holds 7, yet the payload has no property of that name, and the
    request body has no member for it. *)
Lemma C10_proto_name_counterexample :
  last_entry duplicate_proto_entries "__proto__" = Some ("__proto__", "7")
  /\ coerce "__proto__" "7" = VNum (Number.parseFloat "7")
  /\ get_own (build_payload duplicate_proto_entries) "__proto__" = None
  /\ get_own (build_payload duplicate_proto_entries) "__proto__"
     <> option_map (fun e => coerce "__proto__" (snd e))
          (last_entry duplicate_proto_entries "__proto__")
  /\ build_payload duplicate_proto_entries = [("soil_ph", VNum (Number.parseFloat "6"))]
  /\ body (predict_request (build_payload duplicate_proto_entries))
     = Some (String "{" (String JSON.quote_mark
               ("soil_ph" ++ String JSON.quote_mark ":6}"))).
Proof.
  split; [reflexivity|]. split; [reflexivity|]. split; [reflexivity|].
  split; [discriminate|]. split; [reflexivity|]. vm_compute. reflexivity.
Qed.

(** C6, as amended.  When a field that is coerced to a number holds a
    string with no numeric prefix (no later field repeats its name, and
    its name is not [__proto__]), the payload holds NaN under its name,
    the member written for it into the request body is [null], and the
    request is sent all the same: the listener completes without an error
    of its own. *)
Theorem C6_non_numeric_sent_as_null pre key value post :
  is_text_field key = false ->
  key <> "__proto__" ->
  has_numeric_prefix value = false ->
  ~ In key (map fst post) ->
  get_own (build_payload (pre ++ (key, value) :: post)) key = Some (VNum Number.NaN)
  /\ (forall j, In (key, j) (transmitted_members (build_payload (pre ++ (key, value) :: post)))
                <-> j = JSON.JNull)
  /\ body (predict_request (build_payload (pre ++ (key, value) :: post)))
     = Some (JSON.render (JSON.JObject
               (transmitted_members (build_payload (pre ++ (key, value) :: post)))))
  /\ (forall env w,
        FormData_entries (farmForm w) = (pre ++ (key, value) :: post)%list ->
        fst (farmForm_submit env w) = Normal tt
        /\ In (Fetch (predict_request (build_payload (pre ++ (key, value) :: post))))
              (trace (snd (farmForm_submit env w)))).
Proof.
  intros Htext Hkey Hnum Hpost.
  assert (Hget : get_own (build_payload (pre ++ (key, value) :: post)) key
                 = Some (VNum Number.NaN)).
  { rewrite (proj1 (final_field_stored pre key value post Hpost) Htext Hkey).
    now rewrite (parseFloat_not_numeric _ Hnum). }
  split; [exact Hget|]. split; [|split; [apply body_predict_request|]].
  - intros j. rewrite payload_member. split.
    + intros [x [Hx Hj]]. rewrite Hget in Hx. inversion Hx; subst x.
      simpl in Hj. now inversion Hj.
    + intros ->. exists (VNum Number.NaN). auto.
  - intros env w Hform. rewrite submit_run. split; [reflexivity|].
    cbn [snd]. unfold payload_of. rewrite Hform.
    change (trace (do_set_display ?i ?v ?w')) with (trace w' ++ [SetStyleDisplay i v])%list.
    apply in_or_app. left.
    remember (build_payload (pre ++ (key, value) :: post)) as data.
    unfold try_catch.
    destruct (try_block_fetches env data (submitting w)) as [l Hl].
    destruct (try_block env data (submitting w)) as [[[]|e] w'] eqn:E; cbn [snd] in *.
    + rewrite Hl. apply in_or_app. right. now left.
    + unfold catch_block, alert, act. cbn [snd trace log].
      rewrite Hl. apply in_or_app. left. apply in_or_app. right. now left.
Qed.

Lemma C6_non_numeric_sent_as_null_witness :
  get_own (build_payload [("region", "South"); ("soil_ph", "abc")]) "soil_ph"
  = Some (VNum Number.NaN)
  /\ (forall j, In ("soil_ph", j)
                  (transmitted_members (build_payload [("region", "South"); ("soil_ph", "abc")]))
                <-> j = JSON.JNull).
Proof.
  assert (Hpost : ~ In "soil_ph" (map fst (@nil (string * string)))) by (simpl; tauto).
  assert (Hkey : "soil_ph" <> "__proto__") by discriminate.
  pose proof (C6_non_numeric_sent_as_null [("region", "South")] "soil_ph" "abc" []
                eq_refl Hkey eq_refl Hpost) as H.
  split; [exact (proj1 H)|exact (proj1 (proj2 H))].
Defined.

(** C6 as stated fails: the string abc in the numeric field [soil_ph] makes
    the payload hold NaN, but the request body carries [null] for the
    field, which is no number at all. *)
Lemma C6_body_carries_null_counterexample :
  is_text_field "soil_ph" = false
  /\ has_numeric_prefix "abc" = false
  /\ get_own (build_payload non_numeric_entries) "soil_ph" = Some (VNum Number.NaN)
  /\ transmitted_members (build_payload non_numeric_entries) = [("soil_ph", JSON.JNull)]
  /\ body (predict_request (build_payload non_numeric_entries))
     = Some (String "{" (String JSON.quote_mark
               ("soil_ph" ++ String JSON.quote_mark ":null}")))
  /\ ~ (exists x, In ("soil_ph", JSON.JNumber x)
                     (transmitted_members (build_payload non_numeric_entries))
                  /\ Number.isNaN x = true).
Proof.
  repeat (split; [reflexivity|]).
  intros [x [[H|[]] _]]. discriminate H.
Qed.

(** ** Handling the response *)

(** C2.  When the parsed response is an object, a truthy [success] makes
    the listener run the rendering step on the object's [predictions]
    member (so a prediction result is rendered); a falsy [success] makes
    it alert a message that contains the text of the object's [error]
    member, with no effect of the rendering step and the results region
    still hidden afterwards. *)
Theorem C2_response_dispatch env w response result :
  network env (predict_request (payload_of w)) = FetchResolved response ->
  json response = JsonParsed result ->
  is_object result = true ->
  (ToBoolean (member result "success") = true ->
   farmForm_submit env w
   = try_finally
       (try_catch (displayResults env (member result "predictions")) catch_block)
       finally_block (requested w)
   /\ forall water fertilizer yield irrigation recommendation tips,
        prediction_result (member result "predictions")
          water fertilizer yield irrigation recommendation tips ->
        farmForm_submit env w
        = (Normal tt,
           do_set_display loadingIndicator "none"
             (rendered water fertilizer yield irrigation recommendation tips
                (requested w))))
  /\ (ToBoolean (member result "success") = false ->
      forall text, ToString (member result "error") = Some text ->
        contains ("Error: " ++ text) text
        /\ trace (snd (farmForm_submit env w))
           = (trace w
              ++ [PreventDefault; SetStyleDisplay loadingIndicator "block";
                  SetStyleDisplay results "none";
                  Fetch (predict_request (payload_of w));
                  Alert ("Error: " ++ text);
                  SetStyleDisplay loadingIndicator "none"])%list
        /\ hidden (snd (farmForm_submit env w)) results
        /\ forall i, i <> loadingIndicator -> i <> results ->
             document (snd (farmForm_submit env w)) i = document w i).
Proof.
  intros H J Ho. split; intros Hs.
  - split; [now apply submit_success with response|].
    intros water fertilizer yield irrigation recommendation tips Hp.
    rewrite (submit_success _ _ _ _ H J Ho Hs).
    unfold finally_block, set_style_display. rewrite try_finally_act.
    erewrite try_catch_normal by (apply displayResults_run; exact Hp).
    reflexivity.
  - intros text He.
    rewrite (submit_reported_failure _ _ _ _ _ H J Ho Hs He). cbn [snd].
    split; [apply contains_suffix|].
    split; [|split].
    + change (trace (do_set_display ?i ?v ?w')) with (trace w' ++ [SetStyleDisplay i v])%list.
      cbn [trace log]. rewrite requested_trace.
      now repeat rewrite <- app_assoc.
    + reflexivity.
    + intros i Hl Hr. destruct i; solve [reflexivity | congruence].
Qed.

Lemma C2_response_dispatch_witness :
  trace (snd (farmForm_submit (answering failure_response) (sample_page sample_form)))
  = [PreventDefault; SetStyleDisplay loadingIndicator "block";
     SetStyleDisplay results "none";
     Fetch (predict_request (payload_of (sample_page sample_form)));
     Alert "Error: bad input";
     SetStyleDisplay loadingIndicator "none"]
  /\ hidden (snd (farmForm_submit (answering failure_response) (sample_page sample_form)))
       results
  /\ farmForm_submit (answering success_response) (sample_page sample_form)
     = try_finally
         (try_catch (displayResults (answering success_response) sample_predictions)
                    catch_block)
         finally_block (requested (sample_page sample_form)).
Proof.
  pose proof (proj2 (C2_response_dispatch (answering failure_response)
                       (sample_page sample_form)
                       {| json := JsonParsed
                            (VObj [("success", VBool false); ("error", VStr "bad input")]) |}
                       (VObj [("success", VBool false); ("error", VStr "bad input")])
                       eq_refl eq_refl eq_refl) eq_refl "bad input" eq_refl) as Hf.
  pose proof (proj1 (C2_response_dispatch (answering success_response)
                       (sample_page sample_form)
                       {| json := JsonParsed
                            (VObj [("success", VBool true);
                                   ("predictions", sample_predictions)]) |}
                       (VObj [("success", VBool true);
                              ("predictions", sample_predictions)])
                       eq_refl eq_refl eq_refl) eq_refl) as Hs.
  split; [exact (proj1 (proj2 Hf))|].
  split; [exact (proj1 (proj2 (proj2 Hf)))|exact (proj1 Hs)].
Defined.

(** C3.  When the network call rejects, or the response body cannot be
    parsed, the listener alerts the generic prefix followed by the
    message of the error, and the results region is still hidden
    afterwards. *)
Theorem C3_transport_failure env w error :
  (network env (predict_request (payload_of w)) = FetchRejected error
   \/ exists response,
        network env (predict_request (payload_of w)) = FetchResolved response
        /\ json response = JsonRejected error) ->
  fst (farmForm_submit env w) = Normal tt
  /\ trace (snd (farmForm_submit env w))
     = (trace w
        ++ [PreventDefault; SetStyleDisplay loadingIndicator "block";
            SetStyleDisplay results "none";
            Fetch (predict_request (payload_of w));
            Alert ("Failed to get predictions: " ++ message error);
            SetStyleDisplay loadingIndicator "none"])%list
  /\ hidden (snd (farmForm_submit env w)) results
  /\ forall i, i <> loadingIndicator -> i <> results ->
       document (snd (farmForm_submit env w)) i = document w i.
Proof.
  intros H. rewrite (submit_transport_failure _ _ _ H). cbn [fst snd].
  split; [reflexivity|]. split; [|split].
  - change (trace (do_set_display ?i ?v ?w')) with (trace w' ++ [SetStyleDisplay i v])%list.
    cbn [trace log]. rewrite requested_trace.
    now repeat rewrite <- app_assoc.
  - reflexivity.
  - intros i Hl Hr. destruct i; solve [reflexivity | congruence].
Qed.

Lemma C3_transport_failure_witness :
  trace (snd (farmForm_submit (answering (FetchRejected network_failure))
                (sample_page sample_form)))
  = [PreventDefault; SetStyleDisplay loadingIndicator "block";
     SetStyleDisplay results "none";
     Fetch (predict_request (payload_of (sample_page sample_form)));
     Alert "Failed to get predictions: Failed to fetch";
     SetStyleDisplay loadingIndicator "none"]
  /\ hidden (snd (farmForm_submit (answering unparsable_response)
                    (sample_page sample_form))) results.
Proof.
  split.
  - exact (proj1 (proj2 (C3_transport_failure
             (answering (FetchRejected network_failure)) (sample_page sample_form)
             network_failure (or_introl eq_refl)))).
  - refine (proj1 (proj2 (proj2 (C3_transport_failure
             (answering unparsable_response) (sample_page sample_form)
             {| error_name := "SyntaxError"; message := "Unexpected token < in JSON" |}
             (or_intror (ex_intro _ {| json := JsonRejected _ |} (conj eq_refl eq_refl))))))).
Defined.

(** C4.  Every run of the listener completes, and its last step hides
    the loading indicator: whatever the network answers and whatever the
    response holds, the indicator is hidden afterwards and no effect
    follows the one that hides it. *)
Theorem C4_loading_indicator_cleared env w :
  fst (farmForm_submit env w) = Normal tt
  /\ hidden (snd (farmForm_submit env w)) loadingIndicator
  /\ exists before,
       trace (snd (farmForm_submit env w))
       = (before ++ [SetStyleDisplay loadingIndicator "none"])%list.
Proof.
  rewrite submit_run. cbn [fst snd].
  split; [reflexivity|]. split; [reflexivity|].
  eexists. reflexivity.
Qed.

(** C7.  Every run of the listener starts by preventing the default
    action of the event: it is the first effect of the run, it is done
    before the request is sent, and it holds when the run is over. *)
Theorem C7_default_prevented env w :
  defaultPrevented (submitting w) = true
  /\ defaultPrevented (snd (farmForm_submit env w)) = true
  /\ exists rest,
       trace (snd (farmForm_submit env w)) = (trace w ++ PreventDefault :: rest)%list.
Proof.
  split; [reflexivity|].
  assert (He : extends (submitting w) (snd (farmForm_submit env w))).
  { rewrite submit_unfold.
    apply (monotone_try_finally
             (try_catch (try_block env (payload_of w)) catch_block) finally_block).
    - apply monotone_try_catch; [apply monotone_try_block|apply monotone_catch_block].
    - apply monotone_finally_block. }
  destruct He as [[l Hl] Hd]. split; [now apply Hd|].
  rewrite Hl, submitting_trace. rewrite <- app_assoc. eexists. reflexivity.
Qed.

(** ** Rendering and reset *)

(** C5, as amended.  For a prediction result, the rendering operation
    completes and leaves [toFixed(2)] of the water requirement,
    [toFixed(2)] of the fertilizer requirement and [toFixed(0)] of the
    expected yield as the text of their elements: fixed-decimal text with
    2, 2 and 0 decimal places whenever the number is finite and below
    10^21 in magnitude.  The two recommendations are shown as given, the
    tips list holds exactly one [li] per tip, in order, whatever it held
    before, and the results region is visible.  For the specification's
    sample the three texts are 5.68, 12.30 and 4500 and the list holds
    Tip A, then Tip B. *)
Theorem C5_displayResults_renders :
  (forall env predictions water fertilizer yield irrigation recommendation tips w,
     prediction_result predictions water fertilizer yield irrigation recommendation tips ->
     fst (displayResults env predictions w) = Normal tt
     /\ shown (snd (displayResults env predictions w)) waterResult
        = Number.toFixed water 2
     /\ shown (snd (displayResults env predictions w)) fertilizerResult
        = Number.toFixed fertilizer 2
     /\ shown (snd (displayResults env predictions w)) yieldResult
        = Number.toFixed yield 0
     /\ (below_1e21 water = true ->
         fixed_point_text (shown (snd (displayResults env predictions w)) waterResult) 2
         = true)
     /\ (below_1e21 fertilizer = true ->
         fixed_point_text (shown (snd (displayResults env predictions w)) fertilizerResult) 2
         = true)
     /\ (below_1e21 yield = true ->
         fixed_point_text (shown (snd (displayResults env predictions w)) yieldResult) 0
         = true)
     /\ shown (snd (displayResults env predictions w)) waterRec = irrigation
     /\ shown (snd (displayResults env predictions w)) fertilizerRec = recommendation
     /\ childNodes (document (snd (displayResults env predictions w)) tipsList)
        = map li tips
     /\ map node_text (childNodes (document (snd (displayResults env predictions w)) tipsList))
        = tips
     /\ visible (snd (displayResults env predictions w)) results)
  /\ (forall env w,
        fst (displayResults env sample_predictions w) = Normal tt
        /\ shown (snd (displayResults env sample_predictions w)) waterResult = "5.68"
        /\ shown (snd (displayResults env sample_predictions w)) fertilizerResult = "12.30"
        /\ shown (snd (displayResults env sample_predictions w)) yieldResult = "4500"
        /\ childNodes (document (snd (displayResults env sample_predictions w)) tipsList)
           = [li "Tip A"; li "Tip B"]
        /\ map node_text
             (childNodes (document (snd (displayResults env sample_predictions w)) tipsList))
           = ["Tip A"; "Tip B"]
        /\ visible (snd (displayResults env sample_predictions w)) results).
Proof.
  split.
  - intros env predictions water fertilizer yield irrigation recommendation tips w Hp.
    rewrite (displayResults_run _ _ _ _ _ _ _ _ _ Hp). cbn [fst snd].
    unfold visible, shown. rewrite !rendered_document. cbn [childNodes style_display].
    rewrite !textContent_text_children.
    repeat (split; [reflexivity|]).
    repeat (split; [apply toFixed_fixed_point|]).
    repeat (split; [reflexivity|]). split; [apply node_text_tips|reflexivity].
  - intros env w.
    rewrite (displayResults_run _ _ _ _ _ _ _ _ _ sample_is_prediction_result).
    cbn [fst snd]. unfold visible, shown. rewrite !rendered_document.
    cbn [childNodes style_display]. rewrite !textContent_text_children.
    repeat split; vm_compute; reflexivity.
Qed.

Lemma C5_displayResults_renders_witness :
  shown (snd (displayResults (answering success_response) sample_predictions
                (sample_page sample_form))) waterResult
  = Number.toFixed (Number.of_decimal false 5678 (-3)) 2
  /\ fixed_point_text
       (shown (snd (displayResults (answering success_response) sample_predictions
                      (sample_page sample_form))) waterResult) 2 = true
  /\ childNodes (document
       (snd (displayResults (answering success_response) sample_predictions
               (sample_page sample_form))) tipsList)
     = [li "Tip A"; li "Tip B"].
Proof.
  assert (Hp : prediction_result sample_predictions
                 (Number.of_decimal false 5678 (-3)) (Number.of_decimal false 123 (-1))
                 (Number.of_decimal false 4500 0)
                 "Drip irrigation" "Apply nitrogen" ["Tip A"; "Tip B"])
    by (eexists; repeat split).
  pose proof (proj1 C5_displayResults_renders (answering success_response)
                sample_predictions _ _ _ _ _ _ (sample_page sample_form) Hp) as H.
  split; [exact (proj1 (proj2 H))|].
  split; [exact (proj1 (proj2 (proj2 (proj2 (proj2 H)))) eq_refl)|].
  exact (proj1 (proj2 (proj2 (proj2 (proj2 (proj2 (proj2 (proj2 (proj2 (proj2 H)))))))))).
Defined.

(** C5 as stated fails on a large number: a water requirement of 10^21
    is a number of a prediction result, and the text written for it is in
    exponent notation, with no decimal places at all. *)
Lemma C5_exponent_notation_counterexample :
  prediction_result huge_predictions
    (Number.of_decimal false 1 21) (Number.of_decimal false 123 (-1))
    (Number.of_decimal false 4500 0)
    "Drip irrigation" "Apply nitrogen" ["Tip A"; "Tip B"]
  /\ fst (displayResults (answering success_response) huge_predictions
            (sample_page sample_form)) = Normal tt
  /\ shown (snd (displayResults (answering success_response) huge_predictions
                   (sample_page sample_form))) waterResult = "1e+21"
  /\ fixed_point_text "1e+21" 2 = false.
Proof.
  split; [eexists; repeat split|].
  repeat split; vm_compute; reflexivity.
Qed.

(** C9.  Rendering empties the tips list before it appends: after
    rendering a prediction result the list holds one item per tip,
    whatever it held before, and rendering the same result again leaves
    the list, and every element of the page, as the first rendering left
    it. *)
Theorem C9_rendering_idempotent env predictions water fertilizer yield
    irrigation recommendation tips w :
  prediction_result predictions water fertilizer yield irrigation recommendation tips ->
  childNodes (document (snd (displayResults env predictions w)) tipsList) = map li tips
  /\ List.length (childNodes (document (snd (displayResults env predictions w)) tipsList))
     = List.length tips
  /\ childNodes (document (snd (displayResults env predictions
                                  (snd (displayResults env predictions w)))) tipsList)
     = childNodes (document (snd (displayResults env predictions w)) tipsList)
  /\ forall i,
       document (snd (displayResults env predictions
                        (snd (displayResults env predictions w)))) i
       = document (snd (displayResults env predictions w)) i.
Proof.
  intros Hp. rewrite !(displayResults_run _ _ _ _ _ _ _ _ _ Hp). cbn [snd].
  rewrite !rendered_document. cbn [childNodes].
  split; [reflexivity|]. split; [apply length_map|]. split; [reflexivity|].
  intros i. rewrite !rendered_document. destruct i; reflexivity.
Qed.

Lemma C9_rendering_idempotent_witness :
  childNodes (document
    (snd (displayResults (answering success_response) sample_predictions
            (snd (displayResults (answering success_response) sample_predictions
                    (sample_page sample_form))))) tipsList)
  = [li "Tip A"; li "Tip B"].
Proof.
  assert (Hp : prediction_result sample_predictions
                 (Number.of_decimal false 5678 (-3)) (Number.of_decimal false 123 (-1))
                 (Number.of_decimal false 4500 0)
                 "Drip irrigation" "Apply nitrogen" ["Tip A"; "Tip B"])
    by (eexists; repeat split).
  pose proof (C9_rendering_idempotent (answering success_response) sample_predictions
                _ _ _ _ _ _ (sample_page sample_form) Hp) as H.
  exact (eq_trans (proj1 (proj2 (proj2 H))) (proj1 H)).
Defined.

(** C8.  In every state, the reset operation puts every control of the
    form back to its default value and to its default checkedness, with
    the same controls and the same defaults as before, hides the results
    region, changes nothing else on the page, and has two effects only,
    neither of which is a request: the trace holds no request that it did
    not hold before. *)
Theorem C8_resetForm w :
  fst (resetForm w) = Normal tt
  /\ farmForm (snd (resetForm w)) = map reset_control (farmForm w)
  /\ Forall (fun c => value c = defaultValue c /\ checked c = defaultChecked c)
       (farmForm (snd (resetForm w)))
  /\ map name (farmForm (snd (resetForm w))) = map name (farmForm w)
  /\ map (fun c => (checkable c, disabled c, defaultValue c, defaultChecked c))
       (farmForm (snd (resetForm w)))
     = map (fun c => (checkable c, disabled c, defaultValue c, defaultChecked c))
         (farmForm w)
  /\ hidden (snd (resetForm w)) results
  /\ (forall i, i <> results -> document (snd (resetForm w)) i = document w i)
  /\ childNodes (document (snd (resetForm w)) results) = childNodes (document w results)
  /\ trace (snd (resetForm w))
     = (trace w ++ [FormReset; SetStyleDisplay results "none"])%list
  /\ forall r, In (Fetch r) (trace (snd (resetForm w))) -> In (Fetch r) (trace w).
Proof.
  split; [reflexivity|]. split; [reflexivity|]. split; [|split; [|split; [|split]]].
  - cbn. apply Forall_forall. intros c Hc. apply in_map_iff in Hc as [c0 [<- _]].
    split; reflexivity.
  - cbn. rewrite map_map. reflexivity.
  - cbn. rewrite map_map. reflexivity.
  - reflexivity.
  - split; [|split; [reflexivity|split]].
    + intros i Hi. destruct i; solve [reflexivity | congruence].
    + cbn. now rewrite <- app_assoc.
    + intros r. cbn. rewrite !in_app_iff. simpl.
      intros [[H|[H|[]]]|[H|[]]]; solve [assumption | discriminate H].
Qed.

(** * Further properties *)

(** ** Views that a computation keeps *)

Section Keeps.

Context {T : Type} (view : world -> T).

Lemma keeps_ret {A} (a : A) : keeps view (ret a).
Proof. intros w. reflexivity. Qed.

Lemma keeps_throw {A} e : keeps view (@throw A e).
Proof. intros w. reflexivity. Qed.

Lemma keeps_act f : (forall w, view (f w) = view w) -> keeps view (act f).
Proof. intros H w. apply H. Qed.

Lemma keeps_bind {A B} (m : M A) (k : A -> M B) :
  keeps view m -> (forall a, keeps view (k a)) -> keeps view (bind m k).
Proof.
  intros Hm Hk w. unfold bind. specialize (Hm w).
  destruct (m w) as [[a|e] w']; simpl in *; auto.
  now rewrite Hk.
Qed.

Lemma keeps_try_catch {A} (block : M A) handler :
  keeps view block -> (forall e, keeps view (handler e)) ->
  keeps view (try_catch block handler).
Proof.
  intros Hb Hh w. unfold try_catch. specialize (Hb w).
  destruct (block w) as [[a|e] w']; simpl in *; auto.
  now rewrite Hh.
Qed.

Lemma keeps_try_finally {A} (block : M A) finalizer :
  keeps view block -> keeps view finalizer -> keeps view (try_finally block finalizer).
Proof.
  intros Hb Hf w. unfold try_finally. specialize (Hb w).
  destruct (block w) as [c w']. specialize (Hf w').
  destruct (finalizer w') as [[[]|e] w'']; simpl in *; congruence.
Qed.

Lemma keeps_of_option {A} e (o : option A) : keeps view (of_option e o).
Proof. destruct o; [apply keeps_ret|apply keeps_throw]. Qed.

Lemma keeps_forEach {A} (l : list A) f :
  (forall x, keeps view (f x)) -> keeps view (forEach l f).
Proof.
  intros Hf. induction l as [|x t IH]; simpl.
  - apply keeps_ret.
  - apply keeps_bind; auto.
Qed.

Lemma keeps_response_json r : keeps view (response_json r).
Proof. unfold response_json. destruct (json r); [apply keeps_ret|apply keeps_throw]. Qed.

Lemma keeps_get_member env v prop : keeps view (get_member env v prop).
Proof. destruct v; first [apply keeps_ret|apply keeps_throw]. Qed.

Lemma keeps_call_toFixed env v digits : keeps view (call_toFixed env v digits).
Proof. destruct v; first [apply keeps_ret|apply keeps_throw]. Qed.

Lemma keeps_call_forEach env v f :
  (forall x, keeps view (f x)) -> keeps view (call_forEach env v f).
Proof.
  intros Hf. destruct v; simpl; try apply keeps_throw. now apply keeps_forEach.
Qed.

Lemma keeps_string_plus env prefix v : keeps view (string_plus env prefix v).
Proof.
  unfold string_plus. apply keeps_bind; [apply keeps_of_option|intros; apply keeps_ret].
Qed.

(** A step that keeps the view carries what is known of it from [w0]. *)
Lemma outcome_keeps {A} (m : M A) w0 w :
  keeps view m -> view w = view w0 ->
  outcome m w (fun _ w' => view w' = view w0) (fun _ w' => view w' = view w0).
Proof.
  intros Hm Hw. unfold outcome. specialize (Hm w).
  destruct (m w) as [[a|e] w']; simpl in *; congruence.
Qed.

End Keeps.

Lemma outcome_bind {A B} (m : M A) (k : A -> M B) w (Q1 : A -> world -> Prop) Q E :
  outcome m w Q1 E ->
  (forall a w1, Q1 a w1 -> outcome (k a) w1 Q E) ->
  outcome (bind m k) w Q E.
Proof.
  unfold outcome, bind. intros Hm Hk.
  destruct (m w) as [[a|e] w1]; auto. now apply Hk.
Qed.

Lemma alerts_app a b : alerts (a ++ b) = (alerts a ++ alerts b)%list.
Proof. apply flat_map_app. Qed.

Lemma requests_app a b : requests (a ++ b) = (requests a ++ requests b)%list.
Proof. apply flat_map_app. Qed.

Lemma scrolls_app a b : scrolls (a ++ b) = (scrolls a ++ scrolls b)%list.
Proof. apply flat_map_app. Qed.

(** The steps of a computation built from [bind], member reads, method
    calls and page writes keep a view as soon as the page writes do. *)
Ltac keeps_step :=
  match goal with
  | |- keeps _ (bind _ _) => apply keeps_bind; [|intros ?]
  | |- keeps _ (try_finally _ _) => apply keeps_try_finally
  | |- keeps _ (try_catch _ _) => apply keeps_try_catch; [|intros ?]
  | |- keeps _ (call_forEach _ _ _) => apply keeps_call_forEach; intros ?
  | |- keeps _ (get_member _ _ _) => apply keeps_get_member
  | |- keeps _ (call_toFixed _ _ _) => apply keeps_call_toFixed
  | |- keeps _ (of_option _ _) => apply keeps_of_option
  | |- keeps _ (string_plus _ _ _) => apply keeps_string_plus
  | |- keeps _ (response_json _) => apply keeps_response_json
  | |- keeps _ (ret _) => apply keeps_ret
  | |- keeps _ (throw _) => apply keeps_throw
  | |- keeps _ (if ?b then _ else _) => destruct b
  | |- keeps _ (act _) => apply keeps_act; intros ?
  end.

Ltac keeps_view :=
  unfold assign_textContent, set_textContent, set_innerHTML_empty, appendChild,
    set_style_display, scrollIntoView, alert, console_log, form_reset;
  repeat keeps_step.

Ltac trace_view :=
  cbn [trace log do_set_display do_set_textContent do_clear do_appendChild
       do_set_children with_element do_form_reset do_preventDefault];
  rewrite ?alerts_app, ?requests_app, ?scrolls_app; cbn [alerts requests scrolls flat_map];
  rewrite ?app_nil_r.

Lemma displayResults_outside env predictions :
  keeps outside_rendering (displayResults env predictions).
Proof.
  unfold displayResults. keeps_view; unfold outside_rendering; trace_view; reflexivity.
Qed.

(** The rendering step reveals the results last: a run that throws has
    left the region and the scrolls as they were. *)
Lemma displayResults_outcome_from env predictions w0 w :
  results_view w = results_view w0 ->
  outcome (displayResults env predictions) w
    (fun _ w' => exists w1,
         results_view w1 = results_view w0
         /\ w' = log (ScrollIntoView results "smooth") (do_set_display results "block" w1))
    (fun _ w' => results_view w' = results_view w0).
Proof.
  unfold displayResults. intros H1.
  repeat
    (eapply outcome_bind;
     [ apply (outcome_keeps results_view);
       [ solve [keeps_view; unfold results_view; trace_view; reflexivity]
       | eassumption ]
     | let a := fresh "a" in
       let w' := fresh "w" in
       let H := fresh "H" in
       intros a w' H; cbv beta in H ]).
  unfold outcome, bind, set_style_display, scrollIntoView, act. eauto.
Qed.

Lemma keeps_fetch {T} (view : world -> T) env r :
  (forall w, view (log (Fetch r) w) = view w) -> keeps view (fetch env r).
Proof. intros H w. unfold fetch. destruct (network env r); apply H. Qed.

Lemma keeps_new_FormData {T} (view : world -> T) : keeps view new_FormData.
Proof. intros w. reflexivity. Qed.

(** ** The submit listener and the form *)

Lemma submit_keeps_form env : keeps farmForm (farmForm_submit env).
Proof.
  unfold farmForm_submit, try_block, catch_block, finally_block, displayResults,
    preventDefault.
  repeat first [ apply keeps_new_FormData
               | apply keeps_fetch; intros ?; reflexivity
               | progress keeps_view ];
    reflexivity.
Qed.

(** ** The request of a run *)

Lemma quiet_suffix w w' :
  extends w w' -> requests (trace w') = requests (trace w) ->
  exists l, trace w' = (trace w ++ l)%list /\ requests l = [].
Proof.
  intros [[l Hl] _] H. exists l. split; auto.
  rewrite Hl, requests_app in H.
  rewrite <- (app_nil_r (requests (trace w))) in H at 2.
  now apply app_inv_head in H.
Qed.

Lemma try_block_trace env data w :
  exists l, trace (snd (try_block env data w))
            = (trace w ++ Fetch (predict_request data) :: l)%list
            /\ requests l = [].
Proof.
  destruct (network env (predict_request data)) as [r|error] eqn:H.
  - destruct (json r) as [result|error] eqn:J.
    + rewrite (try_block_parsed _ _ _ _ _ H J).
      match goal with
      | |- context [snd (?m ?w0)] =>
          assert (Hm : monotone m)
            by (unfold alert;
                repeat first [apply monotone_displayResults
                             | apply monotone_string_plus | monotone_step]);
          assert (Hk : keeps (fun w => requests (trace w)) m)
            by (unfold displayResults; keeps_view; trace_view; reflexivity);
          destruct (quiet_suffix _ _ (Hm w0) (Hk w0)) as [l [Hl Hq]]
      end.
      exists l. rewrite Hl. cbn [trace log]. now rewrite <- app_assoc.
    + rewrite (try_block_unparsable _ _ _ _ _ H J). now exists [].
  - rewrite (try_block_rejected _ _ _ _ H). now exists [].
Qed.

Lemma submit_trace env w :
  exists rest,
    trace (snd (farmForm_submit env w))
    = (trace w
       ++ [PreventDefault; SetStyleDisplay loadingIndicator "block";
           SetStyleDisplay results "none";
           Fetch (predict_request (payload_of w))]
       ++ rest)%list
    /\ requests rest = [].
Proof.
  rewrite submit_run. cbn [snd].
  change (trace (do_set_display ?i ?v ?w')) with (trace w' ++ [SetStyleDisplay i v])%list.
  unfold try_catch.
  destruct (try_block_trace env (payload_of w) (submitting w)) as [l [Hl Hq]].
  destruct (try_block env (payload_of w) (submitting w)) as [[[]|e] w'] eqn:E;
    cbn [snd] in *.
  - exists (l ++ [SetStyleDisplay loadingIndicator "none"])%list.
    rewrite Hl, submitting_trace, requests_app, Hq.
    split; [|reflexivity]. now repeat (rewrite <- app_assoc; cbn [app]).
  - unfold catch_block, alert, act. cbn [snd trace log].
    exists (l ++ [Alert ("Failed to get predictions: " ++ message e);
                  SetStyleDisplay loadingIndicator "none"])%list.
    rewrite Hl, submitting_trace, requests_app, Hq.
    split; [|reflexivity]. now repeat (rewrite <- app_assoc; cbn [app]).
Qed.

(** ** Alerts and results *)

Lemma displayResults_shows_or_keeps env predictions s w :
  results_and_alerts w = results_and_alerts s ->
  outcome (displayResults env predictions) w
    (fun _ w' => visible w' results /\ alerts (trace w') = alerts (trace s))
    (fun _ w' => results_and_alerts w' = results_and_alerts s).
Proof.
  intros Hs. unfold results_and_alerts in *. inversion Hs as [[Hd Ha]].
  pose proof (displayResults_outcome_from env predictions w w eq_refl) as Ho.
  pose proof (displayResults_outside env predictions w) as Hk.
  unfold outcome in *.
  destruct (displayResults env predictions w) as [[[]|e] w']; cbn [snd] in Hk;
    unfold outside_rendering in Hk; inversion Hk as [[Hal Hrq Hf Hp Hl]].
  - destruct Ho as [w1 [_ ->]]. split; [reflexivity|congruence].
  - unfold results_view in Ho. inversion Ho as [[Hr Hsc]]. congruence.
Qed.

Lemma outcome_weaken {A} (m : M A) w (Q Q' : A -> world -> Prop)
    (E E' : js_error -> world -> Prop) :
  outcome m w Q E ->
  (forall a w', Q a w' -> Q' a w') -> (forall e w', E e w' -> E' e w') ->
  outcome m w Q' E'.
Proof.
  unfold outcome. destruct (m w) as [[a|e] w']; auto.
Qed.

Lemma try_block_outcome env data s w :
  results_and_alerts w = results_and_alerts s ->
  outcome (try_block env data) w
    (fun _ w' =>
       (visible w' results /\ alerts (trace w') = alerts (trace s))
       \/ (document w' results = document s results
           /\ exists msg, alerts (trace w') = (alerts (trace s) ++ [msg])%list))
    (fun _ w' => results_and_alerts w' = results_and_alerts s).
Proof.
  unfold try_block. intros H0.
  assert (Hf : keeps results_and_alerts (fetch env (predict_request data)))
    by (apply keeps_fetch; intros; unfold results_and_alerts; trace_view; reflexivity).
  repeat
    (eapply outcome_bind;
     [ apply (outcome_keeps results_and_alerts);
       [ solve [assumption | keeps_view; unfold results_and_alerts; trace_view; reflexivity]
       | eassumption ]
     | let a := fresh "a" in
       let w' := fresh "w" in
       let H := fresh "H" in
       intros a w' H; cbv beta in H ]).
  destruct (ToBoolean a1).
  - eapply outcome_bind;
      [apply (outcome_keeps results_and_alerts);
       [keeps_view; unfold results_and_alerts; trace_view; reflexivity|eassumption]|].
    intros p w3 H3. cbv beta in H3.
    apply (outcome_weaken _ _ _ _ _ _ (displayResults_shows_or_keeps env p s w3 H3)); auto.
  - repeat
      (eapply outcome_bind;
       [ apply (outcome_keeps results_and_alerts);
         [ solve [keeps_view; unfold results_and_alerts; trace_view; reflexivity]
         | eassumption ]
       | let a := fresh "a" in
         let w' := fresh "w" in
         let H := fresh "H" in
         intros a w' H; cbv beta in H ]).
    unfold outcome, alert, act. right.
    unfold results_and_alerts in *.
    match goal with H : (document ?x results, _) = _ |- context [log _ ?x] =>
      injection H as Hd Ha end.
    split; [exact Hd|]. eexists. cbn [trace log]. rewrite alerts_app, Ha. reflexivity.
Qed.

(** After a run either the results are shown and nothing was alerted, or
    they are hidden and one message was alerted. *)
Lemma submit_alert_or_results env w :
  (visible (snd (farmForm_submit env w)) results
   /\ alerts (trace (snd (farmForm_submit env w))) = alerts (trace w))
  \/ (hidden (snd (farmForm_submit env w)) results
      /\ exists msg,
           alerts (trace (snd (farmForm_submit env w))) = (alerts (trace w) ++ [msg])%list).
Proof.
  rewrite submit_run. cbn [snd].
  assert (Hs : alerts (trace (submitting w)) = alerts (trace w)).
  { rewrite submitting_trace, alerts_app. cbn. apply app_nil_r. }
  assert (Hh : style_display (document (submitting w) results) = "none") by reflexivity.
  unfold visible, hidden.
  change (document (do_set_display loadingIndicator ?v ?w') results)
    with (document w' results).
  change (trace (do_set_display ?i ?v ?w')) with (trace w' ++ [SetStyleDisplay i v])%list.
  rewrite alerts_app. cbn [alerts flat_map app]. rewrite app_nil_r.
  remember (submitting w) as s eqn:Es in *. clear Es.
  pose proof (try_block_outcome env (payload_of w) s s eq_refl) as Ho.
  unfold outcome, try_catch in *.
  destruct (try_block env (payload_of w) s) as [[[]|e] w']; cbn [snd].
  - destruct Ho as [[Hv Ha]|[Hd [msg Ha]]].
    + left. split; [exact Hv|congruence].
    + right. split; [now rewrite Hd|]. exists msg. congruence.
  - right. unfold catch_block, alert, act. cbn [snd].
    unfold results_and_alerts in Ho. injection Ho as Hd Ha.
    split; [cbn [log document]; now rewrite Hd|].
    eexists. cbn [trace log]. rewrite alerts_app, Ha, Hs. reflexivity.
Qed.

(** ** Rendering values that are not a prediction result *)

Lemma displayResults_without_water env predictions w :
  is_number (member predictions "water_requirement_mm_per_day") = false ->
  exists t, displayResults env predictions w = (Throw (TypeError env t), w).
Proof.
  intros H. unfold displayResults.
  destruct predictions; cbn [member] in H;
    try (eexists; apply bind_throw; reflexivity);
    (erewrite bind_normal by reflexivity; cbn [member];
     match goal with
     | |- context [call_toFixed _ ?v _] =>
         destruct v; try discriminate H; eexists; apply bind_throw; reflexivity
     end).
Qed.

Lemma forEach_items env items texts w :
  tip_texts items = Some texts ->
  forEach items
    (fun tip =>
       bind (of_option (TypeError env CannotConvertToPrimitive) (dom_string tip))
            (fun text => appendChild tipsList (li text))) w
  = (Normal tt, fold_left (fun w' tip => do_appendChild tipsList (li tip) w') texts w).
Proof.
  unfold tip_texts. revert texts w.
  induction items as [|v items IH]; intros texts w H; simpl in H.
  - inversion H. reflexivity.
  - destruct (dom_string v) as [t|] eqn:Hv; [|discriminate].
    destruct (all_some (map dom_string items)) as [r|] eqn:Hr; [|discriminate].
    inversion H; subst texts. simpl forEach. simpl fold_left.
    rewrite <- (IH r _ eq_refl). rewrite Hv. reflexivity.
Qed.

(** Rendering an object whose three requirements are numbers, whatever
    JSON values its recommendations and tips are, as long as each has a
    text. *)
Lemma displayResults_run_values env props water fertilizer yield
    items irrigation_text recommendation_text texts w :
  get_own props "water_requirement_mm_per_day" = Some (VNum water) ->
  get_own props "fertilizer_requirement_kg_per_week" = Some (VNum fertilizer) ->
  get_own props "expected_yield_kg_per_hectare" = Some (VNum yield) ->
  dom_string (member_of props "irrigation_recommendation") = Some irrigation_text ->
  dom_string (member_of props "fertilizer_recommendation") = Some recommendation_text ->
  get_own props "yield_optimization_tips" = Some (VArr items) ->
  tip_texts items = Some texts ->
  displayResults env (VObj props) w
  = (Normal tt,
     rendered water fertilizer yield irrigation_text recommendation_text texts w).
Proof.
  intros Hw Hf Hy Hi Hr Ht Hx.
  assert (Mw : member_of props "water_requirement_mm_per_day" = VNum water)
    by (unfold member_of; now rewrite Hw).
  assert (Mf : member_of props "fertilizer_requirement_kg_per_week" = VNum fertilizer)
    by (unfold member_of; now rewrite Hf).
  assert (My : member_of props "expected_yield_kg_per_hectare" = VNum yield)
    by (unfold member_of; now rewrite Hy).
  assert (Mt : member_of props "yield_optimization_tips" = VArr items)
    by (unfold member_of; now rewrite Ht).
  unfold displayResults, get_member, member. rewrite Mw, Mf, My, Mt. unfold rendered.
  repeat first
    [ erewrite bind_normal by reflexivity
    | erewrite bind_normal by (unfold assign_textContent; rewrite Hi; reflexivity)
    | erewrite bind_normal by (unfold assign_textContent; rewrite Hr; reflexivity) ].
  erewrite bind_normal by (unfold call_forEach; apply forEach_items; exact Hx).
  reflexivity.
Qed.

Lemma displayResults_without_tips env props water fertilizer yield
    irrigation_text recommendation_text w :
  get_own props "water_requirement_mm_per_day" = Some (VNum water) ->
  get_own props "fertilizer_requirement_kg_per_week" = Some (VNum fertilizer) ->
  get_own props "expected_yield_kg_per_hectare" = Some (VNum yield) ->
  dom_string (member_of props "irrigation_recommendation") = Some irrigation_text ->
  dom_string (member_of props "fertilizer_recommendation") = Some recommendation_text ->
  is_array (member_of props "yield_optimization_tips") = false ->
  exists t,
    displayResults env (VObj props) w
    = (Throw (TypeError env t),
       texts_written water fertilizer yield irrigation_text recommendation_text w).
Proof.
  intros Hw Hf Hy Hi Hr Ht.
  assert (Mw : member_of props "water_requirement_mm_per_day" = VNum water)
    by (unfold member_of; now rewrite Hw).
  assert (Mf : member_of props "fertilizer_requirement_kg_per_week" = VNum fertilizer)
    by (unfold member_of; now rewrite Hf).
  assert (My : member_of props "expected_yield_kg_per_hectare" = VNum yield)
    by (unfold member_of; now rewrite Hy).
  unfold displayResults, get_member, member. rewrite Mw, Mf, My. unfold texts_written.
  repeat first
    [ erewrite bind_normal by reflexivity
    | erewrite bind_normal by (unfold assign_textContent; rewrite Hi; reflexivity)
    | erewrite bind_normal by (unfold assign_textContent; rewrite Hr; reflexivity) ].
  destruct (member_of props "yield_optimization_tips"); try discriminate Ht;
    eexists; apply bind_throw; reflexivity.
Qed.

(** ** Responses that are not as expected *)

Lemma submit_nullish_response env w response result :
  network env (predict_request (payload_of w)) = FetchResolved response ->
  json response = JsonParsed result ->
  result = VNull \/ result = VUndefined ->
  farmForm_submit env w
  = (Normal tt,
     do_set_display loadingIndicator "none"
       (log (Alert ("Failed to get predictions: "
                    ++ engine_message env (CannotReadProperty "success")))
            (requested w))).
Proof.
  intros H J Hn. rewrite submit_run. do 2 f_equal.
  rewrite (try_catch_throw _ _ _ (TypeError env (CannotReadProperty "success"))
             (requested w)); [reflexivity|].
  rewrite (try_block_parsed _ _ _ _ _ H J).
  destruct Hn as [-> | ->]; apply bind_throw; reflexivity.
Qed.

Lemma submit_falsy env w response result text :
  network env (predict_request (payload_of w)) = FetchResolved response ->
  json response = JsonParsed result ->
  result <> VNull -> result <> VUndefined ->
  ToBoolean (member result "success") = false ->
  ToString (member result "error") = Some text ->
  farmForm_submit env w
  = (Normal tt,
     do_set_display loadingIndicator "none"
       (log (Alert ("Error: " ++ text)) (requested w))).
Proof.
  intros H J Hn Hu Hs He. rewrite submit_run. do 2 f_equal.
  erewrite try_catch_normal; [reflexivity|].
  rewrite (try_block_parsed _ _ _ _ _ H J).
  destruct result; try congruence;
    (erewrite bind_normal by reflexivity; rewrite Hs;
     erewrite bind_normal by reflexivity;
     unfold string_plus; rewrite He; reflexivity).
Qed.

Lemma submit_unconvertible_error env w response result :
  network env (predict_request (payload_of w)) = FetchResolved response ->
  json response = JsonParsed result ->
  result <> VNull -> result <> VUndefined ->
  ToBoolean (member result "success") = false ->
  ToString (member result "error") = None ->
  farmForm_submit env w
  = (Normal tt,
     do_set_display loadingIndicator "none"
       (log (Alert ("Failed to get predictions: "
                    ++ engine_message env CannotConvertToPrimitive))
            (requested w))).
Proof.
  intros H J Hn Hu Hs He. rewrite submit_run. do 2 f_equal.
  rewrite (try_catch_throw _ _ _ (TypeError env CannotConvertToPrimitive)
             (requested w)); [reflexivity|].
  rewrite (try_block_parsed _ _ _ _ _ H J).
  destruct result; try congruence;
    (erewrite bind_normal by reflexivity; rewrite Hs;
     erewrite bind_normal by reflexivity;
     apply bind_throw; unfold string_plus; rewrite He; reflexivity).
Qed.

Lemma failure_state_trace w msg :
  trace (do_set_display loadingIndicator "none" (log (Alert msg) (requested w)))
  = (trace w
     ++ [PreventDefault; SetStyleDisplay loadingIndicator "block";
         SetStyleDisplay results "none";
         Fetch (predict_request (payload_of w));
         Alert msg;
         SetStyleDisplay loadingIndicator "none"])%list.
Proof.
  change (trace (do_set_display ?i ?v ?w')) with (trace w' ++ [SetStyleDisplay i v])%list.
  cbn [trace log]. rewrite requested_trace.
  now repeat rewrite <- app_assoc.
Qed.

(** ** The names of the payload *)

Lemma distinct_names_snoc entries e :
  distinct_names (entries ++ [e])
  = if in_dec string_dec (fst e) (distinct_names entries)
    then distinct_names entries
    else (distinct_names entries ++ [fst e])%list.
Proof.
  unfold distinct_names. rewrite map_app, rev_app_distr. simpl.
  destruct (in_dec string_dec (fst e) (rev (map fst entries))) as [Hin|Hin];
    destruct (in_dec string_dec (fst e) (rev (nodup string_dec (rev (map fst entries)))))
      as [Hin'|Hin']; try reflexivity.
  - exfalso. apply Hin'. apply -> in_rev. now apply nodup_In.
  - exfalso. apply Hin. apply in_rev in Hin'. now apply nodup_In in Hin'.
Qed.

Lemma In_distinct_names entries key :
  In key (distinct_names entries) <-> In key (map fst entries).
Proof.
  unfold distinct_names. rewrite <- in_rev, nodup_In, <- in_rev. reflexivity.
Qed.

Lemma In_payload_names entries key :
  In key (payload_names entries) <-> In key (map fst entries) /\ key <> "__proto__".
Proof.
  unfold payload_names. rewrite filter_In, In_distinct_names.
  destruct (String.eqb_spec key "__proto__"); simpl; intuition congruence.
Qed.

Lemma payload_names_snoc entries e :
  payload_names (entries ++ [e])
  = if String.eqb (fst e) "__proto__" then payload_names entries
    else if in_dec string_dec (fst e) (payload_names entries)
         then payload_names entries
         else (payload_names entries ++ [fst e])%list.
Proof.
  unfold payload_names at 1. rewrite distinct_names_snoc.
  destruct (in_dec string_dec (fst e) (distinct_names entries)) as [Hin|Hin].
  - destruct (String.eqb_spec (fst e) "__proto__") as [He|He]; [reflexivity|].
    destruct (in_dec string_dec (fst e) (payload_names entries)) as [|Hn]; [reflexivity|].
    exfalso. apply Hn. apply In_payload_names. split; [|assumption].
    now apply In_distinct_names.
  - rewrite filter_app. simpl.
    destruct (String.eqb_spec (fst e) "__proto__") as [He|He]; simpl.
    + apply app_nil_r.
    + destruct (in_dec string_dec (fst e) (payload_names entries)) as [Hp|]; [|reflexivity].
      exfalso. apply Hin. apply In_payload_names in Hp as [Hp _].
      now apply In_distinct_names.
Qed.

(** The properties of the payload, in the order of their creation: the
    names other than [__proto__], in the order of their first entry. *)
Lemma keys_build_payload entries :
  map fst (build_payload entries) = payload_names entries.
Proof.
  induction entries as [|e entries IH] using rev_ind; [reflexivity|].
  rewrite build_payload_snoc, payload_names_snoc. unfold assign.
  destruct (String.eqb (fst e) "__proto__"); [exact IH|].
  rewrite keys_set_prop, IH. reflexivity.
Qed.

Lemma last_entry_exists entries key :
  In key (map fst entries) -> exists v, last_entry entries key = Some (key, v).
Proof.
  intros H. unfold last_entry.
  destruct (find (fun e => String.eqb (fst e) key) (rev entries)) as [[k v]|] eqn:E.
  - apply find_some in E as [_ E]. apply String.eqb_eq in E. simpl in E. subst. eauto.
  - exfalso. apply in_map_iff in H as [[k v] [Hk Hin]]. simpl in Hk. subst k.
    apply in_rev in Hin. apply (find_none _ _ E) in Hin.
    simpl in Hin. rewrite String.eqb_refl in Hin. discriminate.
Qed.

Lemma to_json_coerce key value :
  JSON.to_json (coerce key value) = Some (json_of_field key value).
Proof.
  unfold coerce, json_of_field. rewrite is_numeric_key_text_field.
  destruct (is_text_field key); reflexivity.
Qed.

Lemma transmitted_member entries key j :
  In (key, j) (transmitted_members (build_payload entries))
  <-> key <> "__proto__"
      /\ exists v, last_entry entries key = Some (key, v) /\ j = json_of_field key v.
Proof.
  rewrite payload_member, get_own_build_payload.
  destruct (String.eqb_spec key "__proto__") as [Hk|Hk].
  - split; [intros [x [Hx _]]; discriminate Hx|intros [H _]; contradiction].
  - split.
    + intros [x [Hx Hj]]. split; [assumption|].
      destruct (last_entry entries key) as [[k v]|] eqn:E; [|discriminate].
      apply last_entry_key in E as Hk'. simpl in Hk'. subst k.
      inversion Hx; subst x. rewrite to_json_coerce in Hj. inversion Hj. eauto.
    + intros [_ [v [-> ->]]]. eexists. split; [reflexivity|apply to_json_coerce].
Qed.

(** ** The order of the members *)

Lemma array_index_decimal k n :
  JSON.array_index k = Some n -> k = Str.decimal (Z.of_N n).
Proof.
  unfold JSON.array_index.
  destruct (Number.span_digits k) as [[|d ds] [|c r]]; try discriminate.
  destruct (String.eqb_spec (Str.decimal (Z.of_N (Number.digits_value (d :: ds)))) k)
    as [He|]; [|discriminate].
  destruct (Number.digits_value (d :: ds) <=? 4294967294)%N; [|discriminate].
  simpl. intros H. inversion H. subst n. now symmetry.
Qed.

Lemma index_of_inj a b :
  is_array_index a = true -> is_array_index b = true ->
  index_of a = index_of b -> a = b.
Proof.
  unfold is_array_index, index_of.
  destruct (JSON.array_index a) as [n|] eqn:Ea; [|discriminate].
  destruct (JSON.array_index b) as [m|] eqn:Eb; [|discriminate].
  intros _ _ ->. apply array_index_decimal in Ea, Eb. congruence.
Qed.

Lemma insert_by_index_sorted {A} (e : N * A) (l : list (N * A)) :
  StronglySorted (fun a b => (fst a <= fst b)%N) l ->
  StronglySorted (fun a b => (fst a <= fst b)%N) (JSON.insert_by_index e l).
Proof.
  induction 1 as [|h t Ht IH Hh]; simpl.
  - repeat constructor.
  - destruct (N.ltb_spec (fst e) (fst h)) as [Hlt|Hge].
    + constructor; [now constructor|].
      constructor; [lia|].
      rewrite Forall_forall in *. intros x Hx. specialize (Hh x Hx). lia.
    + constructor; [exact IH|].
      rewrite Forall_forall in *. intros x Hx.
      apply In_insert_by_index in Hx as [->|Hx]; [lia|auto].
Qed.

Lemma sorted_by_index {A} (l : list (N * A)) :
  StronglySorted (fun a b => (fst a <= fst b)%N) (fold_right JSON.insert_by_index [] l).
Proof.
  induction l as [|h t IH]; simpl; [constructor|].
  now apply insert_by_index_sorted.
Qed.

Lemma insert_by_index_permutation {A} (e : N * A) (l : list (N * A)) :
  Permutation (JSON.insert_by_index e l) (e :: l).
Proof.
  induction l as [|h t IH]; simpl; [reflexivity|].
  destruct (fst e <? fst h)%N; [reflexivity|].
  rewrite IH. apply perm_swap.
Qed.

Lemma sorted_by_index_permutation {A} (l : list (N * A)) :
  Permutation (fold_right JSON.insert_by_index [] l) l.
Proof.
  induction l as [|h t IH]; simpl; [reflexivity|].
  rewrite insert_by_index_permutation. now constructor.
Qed.

(** Enumeration is a rearrangement of the properties. *)
Lemma own_property_order_permutation {A} (ps : list (string * A)) :
  Permutation (JSON.own_property_order ps) ps.
Proof.
  unfold JSON.own_property_order. rewrite sorted_by_index_permutation.
  unfold JSON.index_entries, JSON.named_entries.
  induction ps as [|p ps IH]; simpl; [reflexivity|].
  destruct (JSON.array_index (fst p)); simpl.
  - now constructor.
  - rewrite <- Permutation_middle. now constructor.
Qed.

Lemma keys_named_entries {A} (ps : list (string * A)) :
  map fst (JSON.named_entries ps)
  = filter (fun k => negb (is_array_index k)) (map fst ps).
Proof.
  unfold JSON.named_entries, is_array_index.
  induction ps as [|p ps IH]; simpl; [reflexivity|].
  destruct (JSON.array_index (fst p)); simpl; now rewrite IH.
Qed.

Lemma strictly_sorted {A} (R R' : A -> A -> Prop) (l : list A) :
  (forall a b, In a l -> In b l -> R a b -> a <> b -> R' a b) ->
  NoDup l -> StronglySorted R l -> StronglySorted R' l.
Proof.
  intros H Hnd Hs. induction Hs as [|a l Hs IH Ha]; [constructor|].
  inversion Hnd as [|? ? Hna Hnd']; subst.
  constructor.
  - apply IH; auto. intros x y Hx Hy. apply H; now right.
  - rewrite Forall_forall in *. intros x Hx.
    apply H; [now left|now right|now apply Ha|].
    intros ->. contradiction.
Qed.

(** The names of an object in the order of enumeration: array indices in
    strictly ascending order, then the other names as they were created. *)
Lemma own_keys_order (o : object) :
  NoDup (map fst o) ->
  exists indices,
    own_keys o = (indices ++ filter (fun k => negb (is_array_index k)) (map fst o))%list
    /\ Forall (fun k => is_array_index k = true) indices
    /\ StronglySorted (fun a b => (index_of a < index_of b)%N) indices.
Proof.
  intros Hnd.
  pose (L := fold_right JSON.insert_by_index [] (JSON.index_entries o)).
  assert (HL : forall x, In x L -> JSON.array_index (fst (snd x)) = Some (fst x)).
  { intros [n q] Hx. apply In_sorted_by_index, In_index_entries in Hx. tauto. }
  assert (Hkeys : own_keys o
                  = (map (fun x => fst (snd x)) L
                     ++ filter (fun k => negb (is_array_index k)) (map fst o))%list).
  { unfold own_keys, JSON.own_property_order. fold L.
    now rewrite map_app, map_map, keys_named_entries. }
  exists (map (fun x => fst (snd x)) L). split; [exact Hkeys|]. split.
  - apply Forall_forall. intros k Hk. apply in_map_iff in Hk as [x [<- Hx]].
    unfold is_array_index. now rewrite (HL x Hx).
  - assert (Hnd' : NoDup (map (fun x => fst (snd x)) L)).
    { assert (Hall : NoDup (own_keys o)).
      { unfold own_keys.
        apply (Permutation_NoDup
                 (Permutation_map fst (Permutation_sym (own_property_order_permutation o)))).
        exact Hnd. }
      rewrite Hkeys in Hall. now apply NoDup_app_remove_r in Hall. }
    assert (Hs : StronglySorted (fun a b => (index_of a <= index_of b)%N)
                   (map (fun x => fst (snd x)) L)).
    { pose proof (sorted_by_index (JSON.index_entries o)) as Hs. fold L in Hs.
      clearbody L. clear Hkeys Hnd'.
      induction Hs as [|x l Hs IH Hx]; simpl; [constructor|].
      constructor.
      - apply IH. intros y Hy. apply HL. now right.
      - rewrite Forall_forall in *. intros k Hk.
        apply in_map_iff in Hk as [y [<- Hy]].
        unfold index_of. rewrite (HL x (or_introl eq_refl)), (HL y (or_intror Hy)).
        now apply Hx. }
    refine (strictly_sorted _ _ _ _ Hnd' Hs).
    intros a b Ha Hb Hle Hne.
    assert (index_of a <> index_of b); [|lia].
    intros Heq. apply Hne. apply index_of_inj; auto.
    + apply in_map_iff in Ha as [x [<- Hx]]. unfold is_array_index. now rewrite (HL x Hx).
    + apply in_map_iff in Hb as [x [<- Hx]]. unfold is_array_index. now rewrite (HL x Hx).
Qed.

Lemma insert_by_index_map {A B} (g : A -> B) (e : N * A) (l : list (N * A)) :
  JSON.insert_by_index (fst e, g (snd e)) (map (fun x => (fst x, g (snd x))) l)
  = map (fun x => (fst x, g (snd x))) (JSON.insert_by_index e l).
Proof.
  induction l as [|h t IH]; simpl; [reflexivity|].
  destruct (fst e <? fst h)%N; simpl; [reflexivity|]. now rewrite IH.
Qed.

(** The order of enumeration depends on the names only. *)
Lemma own_property_order_map {A B} (g : A -> B) (ps : list (string * A)) :
  JSON.own_property_order (map (fun p => (fst p, g (snd p))) ps)
  = map (fun p => (fst p, g (snd p))) (JSON.own_property_order ps).
Proof.
  unfold JSON.own_property_order. rewrite map_app. f_equal.
  - assert (Hi : JSON.index_entries (map (fun p => (fst p, g (snd p))) ps)
                 = map (fun x => (fst x, (fst (snd x), g (snd (snd x)))))
                     (JSON.index_entries ps)).
    { unfold JSON.index_entries. induction ps as [|p ps IH]; simpl; [reflexivity|].
      destruct (JSON.array_index (fst p)); simpl; now rewrite IH. }
    rewrite Hi.
    assert (Hs : forall l : list (N * (string * A)),
               fold_right JSON.insert_by_index []
                 (map (fun x => (fst x, (fst (snd x), g (snd (snd x))))) l)
               = map (fun x => (fst x, (fst (snd x), g (snd (snd x)))))
                   (fold_right JSON.insert_by_index [] l)).
    { induction l as [|h t IH]; simpl; [reflexivity|].
      rewrite IH. apply (insert_by_index_map (fun p => (fst p, g (snd p))) h). }
    rewrite Hs, !map_map. reflexivity.
  - unfold JSON.named_entries. induction ps as [|p ps IH]; simpl; [reflexivity|].
    destruct (JSON.array_index (fst p)); simpl; now rewrite IH.
Qed.

Lemma In_set_prop o key v p :
  In p (set_prop o key v) -> p = (key, v) \/ In p o.
Proof.
  induction o as [|[k x] t IH]; simpl.
  - intros [<-|[]]. now left.
  - destruct (String.eqb_spec k key) as [->|]; simpl.
    + intros [<-|H]; auto.
    + intros [<-|H]; auto. destruct (IH H); auto.
Qed.

(** Every value of the payload is a number or a string of [coerce]: it
    has a JSON form. *)
Lemma values_build_payload entries p :
  In p (build_payload entries) -> exists v, snd p = coerce (fst p) v.
Proof.
  induction entries as [|e entries IH] using rev_ind; [intros []|].
  rewrite build_payload_snoc. unfold assign.
  destruct (String.eqb (fst e) "__proto__"); [exact IH|].
  intros H. apply In_set_prop in H as [->|H]; [|auto].
  simpl. eauto.
Qed.

Lemma defined_members_total {A B} (f : A -> option B) (g : A -> B)
    (ps : list (string * A)) :
  (forall p, In p ps -> f (snd p) = Some (g (snd p))) ->
  JSON.defined_members f ps = map (fun p => (fst p, g (snd p))) ps.
Proof.
  induction ps as [|[k x] t IH]; intros H; [reflexivity|].
  pose proof (H (k, x) (or_introl eq_refl)) as Hx. simpl in Hx.
  simpl. rewrite Hx, IH; [reflexivity|]. intros p Hp. apply H. now right.
Qed.

(** The body lists the members of the payload in the order in which its
    properties are enumerated. *)
Lemma keys_transmitted_members entries :
  map fst (transmitted_members (build_payload entries)) = own_keys (build_payload entries).
Proof.
  unfold transmitted_members, own_keys.
  rewrite (defined_members_total JSON.to_json
             (fun x => match JSON.to_json x with Some j => j | None => JSON.JNull end)).
  - rewrite (own_property_order_map
               (fun x => match JSON.to_json x with Some j => j | None => JSON.JNull end)).
    rewrite !map_map. reflexivity.
  - intros p Hp. destruct (values_build_payload _ _ Hp) as [v ->].
    now rewrite to_json_coerce.
Qed.

(** ** Reset *)

Lemma FormData_entries_reset form :
  FormData_entries (map reset_control form) = default_entries form.
Proof.
  unfold FormData_entries, default_entries, submitted.
  induction form as [|c form IH]; [reflexivity|]. simpl.
  destruct (negb (disabled c) && (negb (checkable c) || defaultChecked c)
            && negb (String.eqb (name c) "")); simpl; now rewrite IH.
Qed.

Lemma default_entries_app form form' :
  default_entries (form ++ form') = (default_entries form ++ default_entries form')%list.
Proof. unfold default_entries. now rewrite filter_app, map_app. Qed.

Lemma submit_requests env w :
  requests (trace (snd (farmForm_submit env w)))
  = (requests (trace w) ++ [predict_request (payload_of w)])%list.
Proof.
  destruct (submit_trace env w) as [rest [-> Hq]].
  rewrite !requests_app, Hq. reflexivity.
Qed.

(** * Further results *)

(** ** The run of the submit listener *)

(** X1.  Every run of the submit listener sends one request and no more:
    it prevents the default, shows the loading indicator, hides the
    results and sends the request, in this order, and nothing after that
    is a request.  The request is a POST to [/api/predict] with a JSON
    content type and a body, the text written for the payload. *)
Theorem X1_one_request_per_run env w :
  (exists rest,
     trace (snd (farmForm_submit env w))
     = (trace w
        ++ [PreventDefault; SetStyleDisplay loadingIndicator "block";
            SetStyleDisplay results "none";
            Fetch (predict_request (payload_of w))]
        ++ rest)%list
     /\ requests rest = [])
  /\ requests (trace (snd (farmForm_submit env w)))
     = (requests (trace w) ++ [predict_request (payload_of w)])%list
  /\ url (predict_request (payload_of w)) = "/api/predict"
  /\ method (predict_request (payload_of w)) = "POST"
  /\ headers (predict_request (payload_of w)) = [("Content-Type", "application/json")]
  /\ body (predict_request (payload_of w))
     = Some (JSON.render (JSON.JObject (transmitted_members (payload_of w)))).
Proof.
  split; [apply submit_trace|]. split; [apply submit_requests|].
  repeat split.
Qed.

(** X2.  No run of the submit listener changes the controls of the form,
    whatever the outcome: what the user entered is still there, a second
    submission builds the same payload, and two submissions in a row send
    the same request twice. *)
Theorem X2_form_kept env env' w :
  farmForm (snd (farmForm_submit env w)) = farmForm w
  /\ payload_of (snd (farmForm_submit env w)) = payload_of w
  /\ requests (trace (snd (farmForm_submit env' (snd (farmForm_submit env w)))))
     = (requests (trace w)
        ++ [predict_request (payload_of w); predict_request (payload_of w)])%list.
Proof.
  pose proof (submit_keeps_form env w) as Hf.
  assert (Hp : payload_of (snd (farmForm_submit env w)) = payload_of w)
    by (unfold payload_of; now rewrite Hf).
  split; [exact Hf|]. split; [exact Hp|].
  rewrite submit_requests, submit_requests, Hp, <- app_assoc. reflexivity.
Qed.

(** X3.  After every run of the submit listener, either the results are
    shown and the run alerted nothing, or the results are hidden and the
    run alerted exactly one message. *)
Theorem X3_results_or_one_alert env w :
  (visible (snd (farmForm_submit env w)) results
   /\ alerts (trace (snd (farmForm_submit env w))) = alerts (trace w))
  \/ (hidden (snd (farmForm_submit env w)) results
      /\ exists msg,
           alerts (trace (snd (farmForm_submit env w))) = (alerts (trace w) ++ [msg])%list).
Proof. apply submit_alert_or_results. Qed.

(** ** The rendering step on any value *)

(** X4.  Whatever value the rendering step is given, it alerts nothing,
    sends nothing and leaves the form, the event and the loading
    indicator alone; when it throws, the results region and the scrolls
    are as before; when it completes, the results are shown, and showing
    them and scrolling them into view smoothly are its last two effects. *)
Theorem X4_rendering_reveals_last env predictions w :
  outside_rendering (snd (displayResults env predictions w)) = outside_rendering w
  /\ (forall e, fst (displayResults env predictions w) = Throw e ->
        document (snd (displayResults env predictions w)) results = document w results
        /\ scrolls (trace (snd (displayResults env predictions w))) = scrolls (trace w))
  /\ (fst (displayResults env predictions w) = Normal tt ->
        visible (snd (displayResults env predictions w)) results
        /\ scrolls (trace (snd (displayResults env predictions w)))
           = (scrolls (trace w) ++ [results])%list
        /\ exists before,
             trace (snd (displayResults env predictions w))
             = (before ++ [SetStyleDisplay results "block";
                           ScrollIntoView results "smooth"])%list).
Proof.
  split; [apply displayResults_outside|].
  pose proof (displayResults_outcome_from env predictions w w eq_refl) as Ho.
  unfold outcome in Ho.
  destruct (displayResults env predictions w) as [[[]|e0] w']; cbn [fst snd].
  - split; [discriminate|]. intros _. destruct Ho as [w1 [H1 ->]].
    unfold results_view in H1. injection H1 as Hd Hs.
    split; [reflexivity|]. split.
    + unfold results_view; trace_view. now rewrite Hs.
    + exists (trace w1). cbn [trace log do_set_display with_element].
      now rewrite <- app_assoc.
  - split; [|discriminate]. intros e _.
    unfold results_view in Ho. injection Ho as Hd Hs. auto.
Qed.

(** X5.  When the value to render has no number under
    [water_requirement_mm_per_day] (the value is [null], the member is
    missing, or it is a string), the rendering step throws a [TypeError]
    at once and changes nothing at all. *)
Theorem X5_rendering_without_water env predictions w :
  is_number (member predictions "water_requirement_mm_per_day") = false ->
  exists t, displayResults env predictions w = (Throw (TypeError env t), w).
Proof. apply displayResults_without_water. Qed.

Lemma X5_rendering_without_water_witness :
  (exists t, displayResults (answering success_response) VNull (sample_page sample_form)
             = (Throw (TypeError (answering success_response) t), sample_page sample_form))
  /\ (exists t,
        displayResults (answering success_response)
          (VObj [("water_requirement_mm_per_day", VStr "5.678")]) (sample_page sample_form)
        = (Throw (TypeError (answering success_response) t), sample_page sample_form)).
Proof.
  split.
  - exact (X5_rendering_without_water (answering success_response) VNull
             (sample_page sample_form) eq_refl).
  - exact (X5_rendering_without_water (answering success_response)
             (VObj [("water_requirement_mm_per_day", VStr "5.678")])
             (sample_page sample_form) eq_refl).
Defined.

(** X6.  When the three requirements are numbers and the recommendations
    have a text but [yield_optimization_tips] is not an array (it is
    missing, say), the rendering step writes the five texts, empties the
    tips list, and then throws a [TypeError]: the earlier tips are gone
    and the results region is not shown. *)
Theorem X6_rendering_without_tips env props water fertilizer yield
    irrigation_text recommendation_text w :
  get_own props "water_requirement_mm_per_day" = Some (VNum water) ->
  get_own props "fertilizer_requirement_kg_per_week" = Some (VNum fertilizer) ->
  get_own props "expected_yield_kg_per_hectare" = Some (VNum yield) ->
  dom_string (member_of props "irrigation_recommendation") = Some irrigation_text ->
  dom_string (member_of props "fertilizer_recommendation") = Some recommendation_text ->
  is_array (member_of props "yield_optimization_tips") = false ->
  (exists t, fst (displayResults env (VObj props) w) = Throw (TypeError env t))
  /\ childNodes (document (snd (displayResults env (VObj props) w)) tipsList) = []
  /\ shown (snd (displayResults env (VObj props) w)) waterResult = Number.toFixed water 2
  /\ shown (snd (displayResults env (VObj props) w)) fertilizerResult
     = Number.toFixed fertilizer 2
  /\ shown (snd (displayResults env (VObj props) w)) yieldResult = Number.toFixed yield 0
  /\ shown (snd (displayResults env (VObj props) w)) waterRec = irrigation_text
  /\ shown (snd (displayResults env (VObj props) w)) fertilizerRec = recommendation_text
  /\ document (snd (displayResults env (VObj props) w)) results = document w results.
Proof.
  intros Hw Hf Hy Hi Hr Ht.
  destruct (displayResults_without_tips env props water fertilizer yield
              irrigation_text recommendation_text w Hw Hf Hy Hi Hr Ht) as [t ->].
  cbn [fst snd]. split; [eauto|].
  unfold shown, texts_written. cbn [document do_clear do_set_textContent log
    do_set_children with_element elem_id_eqb childNodes].
  rewrite !textContent_text_children. repeat split.
Qed.

Lemma X6_rendering_without_tips_witness :
  childNodes (document (sample_page sample_form) tipsList) = [li "Rotate crops"]
  /\ childNodes (document (snd (displayResults (answering success_response)
                                  tipless_predictions (sample_page sample_form)))
                          tipsList) = []
  /\ hidden (snd (displayResults (answering success_response)
                    tipless_predictions (sample_page sample_form))) results.
Proof.
  pose proof (X6_rendering_without_tips (answering success_response)
                [("water_requirement_mm_per_day", VNum (Number.of_decimal false 5678 (-3)));
                 ("fertilizer_requirement_kg_per_week",
                  VNum (Number.of_decimal false 123 (-1)));
                 ("expected_yield_kg_per_hectare", VNum (Number.of_decimal false 4500 0));
                 ("irrigation_recommendation", VStr "Drip irrigation");
                 ("fertilizer_recommendation", VStr "Apply nitrogen")]
                _ _ _ _ _ (sample_page sample_form)
                eq_refl eq_refl eq_refl eq_refl eq_refl eq_refl) as H.
  split; [reflexivity|]. split; [exact (proj1 (proj2 H))|].
  unfold hidden, tipless_predictions.
  rewrite (proj2 (proj2 (proj2 (proj2 (proj2 (proj2 (proj2 H))))))).
  reflexivity.
Defined.

(** X7.  The recommendations and the tips need not be strings: when the
    three requirements are numbers, each recommendation has a text and
    the tips are an array of values that each have a text, the rendering
    step completes, shows those texts and puts one [li] per tip, in
    order, into the list; [null] counts as the empty text. *)
Theorem X7_rendering_any_texts env props water fertilizer yield
    items irrigation_text recommendation_text texts w :
  get_own props "water_requirement_mm_per_day" = Some (VNum water) ->
  get_own props "fertilizer_requirement_kg_per_week" = Some (VNum fertilizer) ->
  get_own props "expected_yield_kg_per_hectare" = Some (VNum yield) ->
  dom_string (member_of props "irrigation_recommendation") = Some irrigation_text ->
  dom_string (member_of props "fertilizer_recommendation") = Some recommendation_text ->
  get_own props "yield_optimization_tips" = Some (VArr items) ->
  tip_texts items = Some texts ->
  fst (displayResults env (VObj props) w) = Normal tt
  /\ shown (snd (displayResults env (VObj props) w)) waterRec = irrigation_text
  /\ shown (snd (displayResults env (VObj props) w)) fertilizerRec = recommendation_text
  /\ childNodes (document (snd (displayResults env (VObj props) w)) tipsList)
     = map li texts
  /\ List.length (childNodes (document (snd (displayResults env (VObj props) w)) tipsList))
     = List.length items
  /\ visible (snd (displayResults env (VObj props) w)) results.
Proof.
  intros Hw Hf Hy Hi Hr Ht Hx.
  rewrite (displayResults_run_values _ _ _ _ _ _ _ _ _ _ Hw Hf Hy Hi Hr Ht Hx).
  cbn [fst snd]. unfold shown, visible. rewrite !rendered_document.
  cbn [childNodes style_display]. rewrite !textContent_text_children.
  repeat (split; [reflexivity|]). split; [|reflexivity].
  rewrite length_map. clear - Hx. unfold tip_texts in Hx. revert texts Hx.
  induction items as [|v items IH]; intros texts Hx; simpl in Hx.
  - now inversion Hx.
  - destruct (dom_string v); [|discriminate].
    destruct (all_some (map dom_string items)) as [r|]; [|discriminate].
    inversion Hx. simpl. f_equal. now apply IH.
Qed.

Lemma X7_rendering_any_texts_witness :
  childNodes (document (snd (displayResults (answering success_response)
                                (VObj mixed_properties) (sample_page sample_form)))
                        tipsList)
  = [li "Tip A"; li ""; li "2"]
  /\ shown (snd (displayResults (answering success_response)
                   (VObj mixed_properties) (sample_page sample_form))) fertilizerRec = "".
Proof.
  pose proof (X7_rendering_any_texts (answering success_response) mixed_properties
                _ _ _ _ "Drip irrigation" "" ["Tip A"; ""; "2"] (sample_page sample_form)
                eq_refl eq_refl eq_refl eq_refl eq_refl eq_refl eq_refl) as H.
  split; [exact (proj1 (proj2 (proj2 (proj2 H))))|exact (proj1 (proj2 (proj2 H)))].
Defined.

(** ** Responses that are not as expected *)

(** X8.  When the response body parses to [null], reading [success]
    throws, and the one alert is the generic failure with the engine's
    message.  When it parses to anything else that has neither a
    [success] nor an [error] member (a number, a string, an array, an
    object without them), the one alert reads Error: undefined.  The
    results stay hidden in both cases. *)
Theorem X8_unexpected_response env w response result :
  network env (predict_request (payload_of w)) = FetchResolved response ->
  json response = JsonParsed result ->
  (result = VNull \/ result = VUndefined ->
   alerts (trace (snd (farmForm_submit env w)))
   = (alerts (trace w)
      ++ [String.append "Failed to get predictions: "
                        (engine_message env (CannotReadProperty "success"))])%list
   /\ hidden (snd (farmForm_submit env w)) results)
  /\ (result <> VNull -> result <> VUndefined ->
      member result "success" = VUndefined ->
      member result "error" = VUndefined ->
      alerts (trace (snd (farmForm_submit env w)))
      = (alerts (trace w) ++ ["Error: undefined"])%list
      /\ hidden (snd (farmForm_submit env w)) results).
Proof.
  intros H J. split.
  - intros Hn. rewrite (submit_nullish_response _ _ _ _ H J Hn). cbn [snd].
    rewrite failure_state_trace, alerts_app. split; reflexivity.
  - intros Hn Hu Hs He.
    assert (Hb : ToBoolean (member result "success") = false) by now rewrite Hs.
    assert (Ht : ToString (member result "error") = Some "undefined") by now rewrite He.
    rewrite (submit_falsy _ _ _ _ _ H J Hn Hu Hb Ht). cbn [snd].
    rewrite failure_state_trace, alerts_app. split; reflexivity.
Qed.

Lemma X8_unexpected_response_witness :
  alerts (trace (snd (farmForm_submit (answering_with VNull) (sample_page sample_form))))
  = ["Failed to get predictions: " ++ sample_messages (CannotReadProperty "success")]
  /\ alerts (trace (snd (farmForm_submit (answering_with (VStr "OK"))
                           (sample_page sample_form))))
     = ["Error: undefined"].
Proof.
  split.
  - exact (proj1 (proj1 (X8_unexpected_response (answering_with VNull)
                           (sample_page sample_form) {| json := JsonParsed VNull |} VNull
                           eq_refl eq_refl) (or_introl eq_refl))).
  - refine (proj1 (proj2 (X8_unexpected_response (answering_with (VStr "OK"))
                            (sample_page sample_form) {| json := JsonParsed (VStr "OK") |}
                            (VStr "OK") eq_refl eq_refl) _ _ eq_refl eq_refl));
      discriminate.
Defined.

(** X9.  When [success] is falsy and the [error] member has no text (an
    object with an own [toString] property cannot be converted), building
    the message throws: the one alert is the generic failure with the
    engine's message, no alert starts with Error, and the results stay
    hidden. *)
Theorem X9_unconvertible_error env w response result :
  network env (predict_request (payload_of w)) = FetchResolved response ->
  json response = JsonParsed result ->
  result <> VNull -> result <> VUndefined ->
  ToBoolean (member result "success") = false ->
  ToString (member result "error") = None ->
  alerts (trace (snd (farmForm_submit env w)))
  = (alerts (trace w)
     ++ [String.append "Failed to get predictions: "
                       (engine_message env CannotConvertToPrimitive)])%list
  /\ hidden (snd (farmForm_submit env w)) results.
Proof.
  intros H J Hn Hu Hs He.
  rewrite (submit_unconvertible_error _ _ _ _ H J Hn Hu Hs He). cbn [snd].
  rewrite failure_state_trace, alerts_app. split; reflexivity.
Qed.

Lemma X9_unconvertible_error_witness :
  alerts (trace (snd (farmForm_submit
                        (answering_with
                           (VObj [("success", VBool false);
                                  ("error", VObj [("toString", VStr "x")])]))
                        (sample_page sample_form))))
  = ["Failed to get predictions: " ++ sample_messages CannotConvertToPrimitive].
Proof.
  refine (proj1 (X9_unconvertible_error
                   (answering_with
                      (VObj [("success", VBool false);
                             ("error", VObj [("toString", VStr "x")])]))
                   (sample_page sample_form)
                   {| json := JsonParsed
                        (VObj [("success", VBool false);
                               ("error", VObj [("toString", VStr "x")])]) |}
                   _ eq_refl eq_refl _ _ eq_refl eq_refl));
    discriminate.
Defined.

(** ** The payload and the body *)

(** X10.  The payload has one property for each name among the entries
    other than [__proto__], and no other: no such name is left out and
    none is repeated.  The properties are enumerated, and the members of
    the request body written, with the array indices first, in ascending
    order, and then the other names in the order of their first entry. *)
Theorem X10_payload_names entries :
  map fst (transmitted_members (build_payload entries)) = own_keys (build_payload entries)
  /\ NoDup (own_keys (build_payload entries))
  /\ (forall key, In key (own_keys (build_payload entries))
                  <-> In key (map fst entries) /\ key <> "__proto__")
  /\ (exists indices,
        own_keys (build_payload entries)
        = (indices ++ filter (fun k => negb (is_array_index k)) (payload_names entries))%list
        /\ Forall (fun k => is_array_index k = true) indices
        /\ StronglySorted (fun a b => (index_of a < index_of b)%N) indices)
  /\ (List.length (own_keys (build_payload entries)) <= List.length entries)%nat.
Proof.
  assert (Hperm : Permutation (own_keys (build_payload entries)) (payload_names entries)).
  { unfold own_keys. rewrite <- keys_build_payload.
    apply Permutation_map, own_property_order_permutation. }
  assert (Hnd : NoDup (own_keys (build_payload entries))).
  { apply (Permutation_NoDup (Permutation_sym Hperm)).
    rewrite <- keys_build_payload. apply NoDup_keys_build_payload. }
  assert (Hin : forall key, In key (own_keys (build_payload entries))
                            <-> In key (map fst entries) /\ key <> "__proto__").
  { intros key. rewrite <- In_payload_names. split; apply Permutation_in; auto.
    now apply Permutation_sym. }
  split; [apply keys_transmitted_members|]. split; [exact Hnd|]. split; [exact Hin|].
  split.
  - rewrite <- keys_build_payload. apply own_keys_order, NoDup_keys_build_payload.
  - rewrite <- (length_map fst entries).
    apply NoDup_incl_length; [exact Hnd|].
    intros key Hk. now apply Hin in Hk.
Qed.

(** X11.  The object written into the request body has a member for every
    name among the entries other than [__proto__], none under the name
    [__proto__], and its members are exactly these: under the name of a
    text field the last value as a JSON string, unchanged even when it
    looks like a number; under any other name the [parseFloat] of the
    last value as a JSON number when it is finite, and [null] otherwise,
    never a string. *)
Theorem X11_body_members entries key :
  (forall j, In (key, j) (transmitted_members (build_payload entries))
             <-> key <> "__proto__"
                 /\ exists v, last_entry entries key = Some (key, v)
                              /\ j = json_of_field key v)
  /\ (In key (map fst entries) -> key <> "__proto__" ->
      exists j, In (key, j) (transmitted_members (build_payload entries)))
  /\ (forall j, ~ In ("__proto__", j) (transmitted_members (build_payload entries)))
  /\ (forall v, is_text_field key = true -> json_of_field key v = JSON.JString v)
  /\ (forall v s, is_text_field key = false -> json_of_field key v <> JSON.JString s).
Proof.
  split; [intros j; apply transmitted_member|]. split; [|split; [|split]].
  - intros Hin Hk. destruct (last_entry_exists _ _ Hin) as [v Hv].
    exists (json_of_field key v). apply transmitted_member. eauto.
  - intros j Hj. apply transmitted_member in Hj as [Hk _]. now apply Hk.
  - intros v Ht. unfold json_of_field. now rewrite Ht.
  - intros v s Ht. unfold json_of_field. rewrite Ht.
    destruct (Number.isFinite (Number.parseFloat v)); discriminate.
Qed.

(** X12.  For a field that is coerced to a number (that no later field of
    the same name follows, and whose name is not [__proto__]), the payload
    holds NaN exactly when the value has no numeric prefix: a value that
    starts with a number is stored as that number even when other text
    follows it. *)
Theorem X12_nan_exactly_without_prefix pre key value post :
  is_text_field key = false ->
  key <> "__proto__" ->
  ~ In key (map fst post) ->
  (get_own (build_payload (pre ++ (key, value) :: post)) key = Some (VNum Number.NaN)
   <-> has_numeric_prefix value = false).
Proof.
  intros Ht Hk Hpost.
  rewrite (proj1 (final_field_stored pre key value post Hpost) Ht Hk).
  rewrite <- parseFloat_NaN_iff. split.
  - intros H. now inversion H.
  - intros ->. reflexivity.
Qed.

Lemma X12_nan_exactly_without_prefix_witness :
  (get_own (build_payload [("soil_ph", "12abc")]) "soil_ph" = Some (VNum Number.NaN)
   <-> has_numeric_prefix "12abc" = false)
  /\ has_numeric_prefix "12abc" = true
  /\ get_own (build_payload [("soil_ph", "12abc")]) "soil_ph"
     = Some (VNum (Number.of_decimal false 12 0)).
Proof.
  split; [|split; reflexivity].
  refine (X12_nan_exactly_without_prefix [] "soil_ph" "12abc" [] eq_refl _ _).
  - discriminate.
  - simpl. tauto.
Defined.

(** ** Reset and submission *)

(** X13.  Resetting twice is resetting once: the second reset changes
    neither a control of the form nor an element of the page. *)
Theorem X13_reset_idempotent w :
  farmForm (snd (resetForm (snd (resetForm w)))) = farmForm (snd (resetForm w))
  /\ forall i, document (snd (resetForm (snd (resetForm w)))) i
               = document (snd (resetForm w)) i.
Proof.
  split.
  - cbn. rewrite map_map. reflexivity.
  - intros i. destruct i; reflexivity.
Qed.

(** X14.  After a reset the form submits its defaults: the entries are
    the default values of the enabled, named controls that are not
    checkable or are checked by default, so that a checkbox which is
    unchecked by default contributes nothing, ticked or not before the
    reset; the payload is built from these entries, and the next
    submission sends exactly that payload. *)
Theorem X14_submit_after_reset env w :
  FormData_entries (farmForm (snd (resetForm w))) = default_entries (farmForm w)
  /\ (forall pre c post,
        farmForm w = (pre ++ c :: post)%list ->
        checkable c = true -> defaultChecked c = false ->
        FormData_entries (farmForm (snd (resetForm w)))
        = (default_entries pre ++ default_entries post)%list)
  /\ payload_of (snd (resetForm w)) = build_payload (default_entries (farmForm w))
  /\ requests (trace (snd (farmForm_submit env (snd (resetForm w)))))
     = (requests (trace w)
        ++ [predict_request (build_payload (default_entries (farmForm w)))])%list.
Proof.
  assert (He : FormData_entries (farmForm (snd (resetForm w)))
               = default_entries (farmForm w)).
  { change (farmForm (snd (resetForm w))) with (map reset_control (farmForm w)).
    apply FormData_entries_reset. }
  assert (Hp : payload_of (snd (resetForm w))
               = build_payload (default_entries (farmForm w))).
  { unfold payload_of. now rewrite He. }
  split; [exact He|]. split; [|split; [exact Hp|]].
  - intros pre c post Hform Hc Hd. rewrite He, Hform.
    rewrite (default_entries_app pre (c :: post)). f_equal.
    unfold default_entries. simpl. rewrite Hc, Hd.
    now rewrite andb_false_r.
  - rewrite submit_requests, Hp. f_equal.
    change (trace (snd (resetForm w)))
      with ((trace w ++ [FormReset]) ++ [SetStyleDisplay results "none"])%list.
    rewrite !requests_app. cbn [requests flat_map app]. now rewrite !app_nil_r.
Qed.

(** ** Rendering again, and the order of a successful run *)

(** X15.  A rendering leaves nothing of an earlier one: rendering a
    prediction result after another one gives every element of the page
    the state that rendering it alone gives. *)
Theorem X15_rendering_overwrites env
    first water1 fertilizer1 yield1 irrigation1 recommendation1 tips1
    second water2 fertilizer2 yield2 irrigation2 recommendation2 tips2 w :
  prediction_result first water1 fertilizer1 yield1 irrigation1 recommendation1 tips1 ->
  prediction_result second water2 fertilizer2 yield2 irrigation2 recommendation2 tips2 ->
  forall i,
    document (snd (displayResults env second (snd (displayResults env first w)))) i
    = document (snd (displayResults env second w)) i.
Proof.
  intros H1 H2 i.
  rewrite (displayResults_run _ _ _ _ _ _ _ _ w H1).
  rewrite !(displayResults_run _ _ _ _ _ _ _ _ _ H2). cbn [snd].
  rewrite !rendered_document. destruct i; reflexivity.
Qed.

Lemma X15_rendering_overwrites_witness :
  shown (snd (displayResults (answering success_response) sample_predictions
                (snd (displayResults (answering success_response) huge_predictions
                        (sample_page sample_form))))) waterResult
  = shown (snd (displayResults (answering success_response) sample_predictions
                  (sample_page sample_form))) waterResult.
Proof.
  assert (H1 : prediction_result huge_predictions
                 (Number.of_decimal false 1 21) (Number.of_decimal false 123 (-1))
                 (Number.of_decimal false 4500 0)
                 "Drip irrigation" "Apply nitrogen" ["Tip A"; "Tip B"])
    by (eexists; repeat split).
  assert (H2 : prediction_result sample_predictions
                 (Number.of_decimal false 5678 (-3)) (Number.of_decimal false 123 (-1))
                 (Number.of_decimal false 4500 0)
                 "Drip irrigation" "Apply nitrogen" ["Tip A"; "Tip B"])
    by (eexists; repeat split).
  unfold shown.
  now rewrite (X15_rendering_overwrites (answering success_response)
                 _ _ _ _ _ _ _ _ _ _ _ _ _ _ (sample_page sample_form) H1 H2 waterResult).
Defined.

(** X16.  The effects of a successful run, in order: the default is
    prevented, the loading indicator shown, the results hidden, the
    request sent; then the five texts are written, the tips list is
    emptied and filled, the results are shown and scrolled into view; the
    loading indicator is hidden last, after the results are shown. *)
Theorem X16_success_trace env w response result
    water fertilizer yield irrigation recommendation tips :
  network env (predict_request (payload_of w)) = FetchResolved response ->
  json response = JsonParsed result ->
  is_object result = true ->
  ToBoolean (member result "success") = true ->
  prediction_result (member result "predictions")
    water fertilizer yield irrigation recommendation tips ->
  trace (snd (farmForm_submit env w))
  = (trace w
     ++ [PreventDefault; SetStyleDisplay loadingIndicator "block";
         SetStyleDisplay results "none";
         Fetch (predict_request (payload_of w));
         SetTextContent waterResult (Number.toFixed water 2);
         SetTextContent fertilizerResult (Number.toFixed fertilizer 2);
         SetTextContent yieldResult (Number.toFixed yield 0);
         SetTextContent waterRec irrigation;
         SetTextContent fertilizerRec recommendation;
         ClearChildren tipsList]
     ++ map (fun tip => AppendChild tipsList (li tip)) tips
     ++ [SetStyleDisplay results "block"; ScrollIntoView results "smooth";
         SetStyleDisplay loadingIndicator "none"])%list.
Proof.
  intros H J Ho Hs Hp.
  rewrite (submit_success _ _ _ _ H J Ho Hs).
  unfold finally_block, set_style_display. rewrite try_finally_act.
  erewrite try_catch_normal by (apply displayResults_run; exact Hp).
  cbn [snd].
  change (trace (do_set_display ?i ?v ?w')) with (trace w' ++ [SetStyleDisplay i v])%list.
  rewrite rendered_trace, requested_trace.
  repeat (rewrite <- app_assoc; cbn [app]). reflexivity.
Qed.

Lemma X16_success_trace_witness :
  trace (snd (farmForm_submit (answering success_response) (sample_page sample_form)))
  = [PreventDefault; SetStyleDisplay loadingIndicator "block";
     SetStyleDisplay results "none";
     Fetch (predict_request (payload_of (sample_page sample_form)));
     SetTextContent waterResult "5.68";
     SetTextContent fertilizerResult "12.30";
     SetTextContent yieldResult "4500";
     SetTextContent waterRec "Drip irrigation";
     SetTextContent fertilizerRec "Apply nitrogen";
     ClearChildren tipsList;
     AppendChild tipsList (li "Tip A"); AppendChild tipsList (li "Tip B");
     SetStyleDisplay results "block"; ScrollIntoView results "smooth";
     SetStyleDisplay loadingIndicator "none"].
Proof.
  assert (Hp : prediction_result sample_predictions
                 (Number.of_decimal false 5678 (-3)) (Number.of_decimal false 123 (-1))
                 (Number.of_decimal false 4500 0)
                 "Drip irrigation" "Apply nitrogen" ["Tip A"; "Tip B"])
    by (eexists; repeat split).
  rewrite (X16_success_trace (answering success_response) (sample_page sample_form)
             {| json := JsonParsed
                  (VObj [("success", VBool true); ("predictions", sample_predictions)]) |}
             (VObj [("success", VBool true); ("predictions", sample_predictions)])
             _ _ _ _ _ _ eq_refl eq_refl eq_refl eq_refl Hp).
  vm_compute. reflexivity.
Defined.
